(** * A shallow embedding of the Freak-n-Fries site: [app.py] (settings
    resolution, data access, views), [freeze.py] (static export),
    [setup.py] and [wsgi.py].

    Python exceptions are values of [exn]; a computation that may print,
    issue SQL queries and raise is a pair of an event log and a [res].
    What the linked SQLite library, Python's float formatting and the
    Jinja templates do beyond the code is a parameter (a class below):
    every property holds whatever they do. *)

From Stdlib Require Import String List ZArith QArith Bool Ascii Lia.
From Stdlib Require Import Sorting.Sorted Sorting.Permutation.
Import ListNotations.
Close Scope Q_scope.
Open Scope string_scope.

(** ** Python exceptions, results and the log of observable events *)

Inductive exn :=
| SqliteError (msg : string)   (* sqlite3.Error and its subclasses *)
| ImportError (msg : string)
| OtherError (msg : string).   (* any other Exception (IndexError, ...) *)

Definition exn_msg (e : exn) : string :=
  match e with SqliteError m | ImportError m | OtherError m => m end.

Definition is_sqlite_error (e : exn) : bool :=
  match e with SqliteError _ => true | _ => false end.

Inductive res (A : Type) := Ok (a : A) | Raise (e : exn).
Arguments Ok {A} a.
Arguments Raise {A} e.

Inductive event :=
| Print (line : string)      (* a line written by print() *)
| Query (sql : string).      (* a statement handed to sqlite3 *)

Definition M (A : Type) : Type := (list event * res A)%type.

Definition ret {A} (a : A) : M A := ([], Ok a).

Definition bind {A B} (m : M A) (k : A -> M B) : M B :=
  match m with
  | (l, Ok a) => let '(l', r) := k a in ((l ++ l')%list, r)
  | (l, Raise e) => (l, Raise e)
  end.

Notation "x <- m ;; k" := (bind m (fun x => k))
  (at level 61, m at next level, right associativity).

(** [try: m except <p>: h] *)
Definition try_except {A} (m : M A) (p : exn -> bool) (h : exn -> M A) : M A :=
  match m with
  | (l, Raise e) => if p e then let '(l', r) := h e in ((l ++ l')%list, r) else (l, Raise e)
  | _ => m
  end.

Definition print (s : string) : M unit := ([Print s], Ok tt).

(** Handing [sql] to sqlite3, whose outcome on the store is [r]. *)
Definition execute {A} (sql : string) (r : res A) : M A := ([Query sql], r).

(** Decimal digits of a non-negative integer, prepended to [acc]. *)
Fixpoint digits (fuel : nat) (n : Z) (acc : string) : string :=
  match fuel with
  | O => acc
  | S f =>
      let acc' := String (ascii_of_nat (48 + Z.to_nat (n mod 10))) acc in
      if (n <? 10)%Z then acc' else digits f (n / 10) acc'
  end.

(** The decimal text of an integer: Python's [str(z)], SQLite's "%lld". *)
Definition z_str (z : Z) : string :=
  let fuel := S (Z.to_nat (Z.log2 (Z.abs z))) in
  if (z <? 0)%Z then "-" ++ digits fuel (- z) "" else digits fuel z "".

(** ** SQLite values *)

(** A REAL as SQLite stores it: a signed zero, a signed infinity, or the
    finite non-zero value (-1)^neg * m * 2^e. SQLite stores no NaN (it
    writes NULL instead). *)
Inductive real64 :=
| RZero (neg : bool)
| RInf (neg : bool)
| RFin (neg : bool) (m : positive) (e : Z).

(** A value of one of SQLite's storage classes, as sqlite3 hands it to
    Python: None, int, float, str (its UTF-8 bytes) or bytes. *)
Inductive sqlval :=
| VNull
| VInt (z : Z)
| VReal (r : real64)
| VText (s : string)
| VBlob (b : string).

(** A number on the extended real line. *)
Inductive num := NegInf | Fin (q : Q) | PosInf.

Definition real_q (neg : bool) (m : positive) (e : Z) : Q :=
  let n := if neg then Z.neg m else Z.pos m in
  if (0 <=? e)%Z then inject_Z (n * 2 ^ e) else Qmake n (Z.to_pos (2 ^ (- e))).

(** The exact value of an INTEGER or a REAL. *)
Definition num_of (v : sqlval) : option num :=
  match v with
  | VInt z => Some (Fin (inject_Z z))
  | VReal (RZero _) => Some (Fin 0%Q)
  | VReal (RInf neg) => Some (if neg then NegInf else PosInf)
  | VReal (RFin neg m e) => Some (Fin (real_q neg m e))
  | _ => None
  end.

Definition num_compare (a b : num) : comparison :=
  match a, b with
  | NegInf, NegInf | PosInf, PosInf => Eq
  | NegInf, _ | _, PosInf => Lt
  | _, NegInf | PosInf, _ => Gt
  | Fin x, Fin y => Qcompare x y
  end.

(** ** Text, collations and the order of values *)

(** SQLite's (and Python's) ASCII case mapping; other bytes are kept. *)
Definition lower_ascii (a : ascii) : ascii :=
  let n := nat_of_ascii a in
  if (65 <=? n)%nat && (n <=? 90)%nat then ascii_of_nat (n + 32) else a.

Fixpoint str_lower (s : string) : string :=
  match s with
  | EmptyString => EmptyString
  | String a s' => String (lower_ascii a) (str_lower s')
  end.

(** [s] without its trailing spaces. *)
Fixpoint rtrim (s : string) : string :=
  match s with
  | EmptyString => EmptyString
  | String a s' =>
      let t := rtrim s' in
      if Ascii.eqb a " "%char && String.eqb t "" then EmptyString else String a t
  end.

(** The built-in collating sequences. *)
Inductive collation := Binary | Nocase | Rtrim.

(** The collation a column's COLLATE clause names ([""] when it has
    none, which means BINARY); SQLite matches the name ignoring case. A
    name it does not know gives [None]. *)
Definition collation_named (n : string) : option collation :=
  let l := str_lower n in
  if String.eqb l "" || String.eqb l "binary" then Some Binary
  else if String.eqb l "nocase" then Some Nocase
  else if String.eqb l "rtrim" then Some Rtrim
  else None.

(** Two texts under a collation: BINARY is memcmp and then length;
    NOCASE first maps A-Z to a-z; RTRIM first drops trailing spaces. *)
Definition coll_compare (coll : collation) (x y : string) : comparison :=
  match coll with
  | Binary => String.compare x y
  | Nocase => String.compare (str_lower x) (str_lower y)
  | Rtrim => String.compare (rtrim x) (rtrim y)
  end.

Definition class_rank (v : sqlval) : nat :=
  match v with VNull => 0 | VInt _ | VReal _ => 1 | VText _ => 2 | VBlob _ => 3 end.

(** [sqlite3MemCompare]: NULL < numbers < TEXT < BLOB; numbers by value
    (INTEGER against REAL exactly), texts under the collation, blobs by
    memcmp and then length. *)
Definition mem_compare (coll : collation) (a b : sqlval) : comparison :=
  match a, b with
  | VText x, VText y => coll_compare coll x y
  | VBlob x, VBlob y => String.compare x y
  | _, _ =>
      match num_of a, num_of b with
      | Some x, Some y => num_compare x y
      | _, _ => Nat.compare (class_rank a) (class_rank b)
      end
  end.

(** ** Column affinity *)

Inductive affinity := ABlob | AText | ANumeric | AInteger | AReal.

(** The last four characters read so far (the 32-bit hash of
    [sqlite3AffinityType]). *)
Definition push4 (w : string) (a : ascii) : string :=
  let w' := (w ++ String a EmptyString)%string in
  if (4 <? String.length w')%nat then substring 1 4 w' else w'.

Definition ends_with_int (w : string) : bool :=
  (3 <=? String.length w)%nat && String.eqb (substring (String.length w - 3) 3 w) "int".

(** [sqlite3AffinityType] on a declared type: INT anywhere gives INTEGER;
    otherwise CHAR, CLOB or TEXT give TEXT, BLOB gives BLOB and REAL, FLOA
    or DOUB give REAL, each unless an earlier rule already applied. *)
Fixpoint affinity_scan (aff : affinity) (w : string) (s : string) : affinity :=
  match s with
  | EmptyString => aff
  | String a s' =>
      let w := push4 w (lower_ascii a) in
      if ends_with_int w then AInteger
      else
        let aff :=
          if String.eqb w "char" || String.eqb w "clob" || String.eqb w "text" then AText
          else if String.eqb w "blob" &&
                  match aff with ANumeric | AReal => true | _ => false end then ABlob
          else if (String.eqb w "real" || String.eqb w "floa" || String.eqb w "doub") &&
                  match aff with ANumeric => true | _ => false end then AReal
          else aff in
        affinity_scan aff w s'
  end.

(** The affinity of a column declared with type [decl] ([""] when the
    declaration names no type: BLOB). *)
Definition affinity_of (decl : string) : affinity :=
  if String.eqb decl "" then ABlob else affinity_scan ANumeric "" decl.

Definition is_text (v : sqlval) : bool := match v with VText _ => true | _ => false end.

(** What the linked SQLite library does in the conversions of a
    comparison: NUMERIC affinity on a text ([sqlite3AtoF]: the INTEGER or
    REAL a well-formed number spells, [None] for any other text, the empty
    one included) and TEXT affinity on a REAL (its "%!.15g" text). *)
Class Sqlite := {
  sqlite_numeric : string -> option sqlval;
  sqlite_real_text : real64 -> string;
  sqlite_numeric_empty : sqlite_numeric "" = None
}.

(** Python's [repr] of a float (what [str] and an f-string print). *)
Class PyFloat := { float_repr : real64 -> string }.

(** Names, as SQLite and sqlite3 match them: ignoring ASCII case. *)
Definition name_eqb (a b : string) : bool := String.eqb (str_lower a) (str_lower b).

Fixpoint assoc {A} (k : string) (l : list (string * A)) : option A :=
  match l with
  | [] => None
  | (k', v) :: l' => if String.eqb k k' then Some v else assoc k l'
  end.

Fixpoint assoc_ci {A} (k : string) (l : list (string * A)) : option A :=
  match l with
  | [] => None
  | (k', v) :: l' => if name_eqb k k' then Some v else assoc_ci k l'
  end.

(** The entry SQLite (or [sqlite3.Row]) picks for the name [k]: the first
    whose name equals [k] ignoring ASCII case. The tables of a schema, the
    columns of a table and those of a result row differ ignoring case
    (SQLite refuses a second table or column that does not), so the entry
    written exactly as [k], when there is one, is that entry. *)
Definition lookup_name {A} (k : string) (l : list (string * A)) : option A :=
  match assoc k l with Some v => Some v | None => assoc_ci k l end.

(** ** Rows, tables and the store *)

(** A [sqlite3.Row]: its column names and values, in order. *)
Definition row := list (string * sqlval).

Definition row_keys (r : row) : list string := map fst r.

(** [row[k]]: a missing column raises IndexError. *)
Definition row_get (r : row) (k : string) : M sqlval :=
  match lookup_name k r with
  | Some v => ret v
  | None => ([], Raise (OtherError "No item with that key"))
  end.

(** A table: the names of its columns, their declared types and their
    COLLATE names ([""] where the declaration has none), in column order,
    and its records. *)
Record table := {
  cols : list string;
  types : list string;
  colls : list string;
  rows : list (list sqlval)
}.

(** The database file: whether [sqlite3.connect] can open it, and its tables. *)
Record db := { db_opens : bool; tables : list (string * table) }.

Definition find_table (d : db) (t : string) : option table := lookup_name t (tables d).

(** Python's [x in l] on a list of strings. *)
Definition in_cols (c : string) (cs : list string) : bool :=
  existsb (String.eqb c) cs.

(** The columns with their positions. *)
Definition numbered (cs : list string) : list (string * nat) := combine cs (seq 0 (length cs)).

(** The position of the column SQLite resolves the name [c] to. *)
Definition col_index (c : string) (cs : list string) : option nat := lookup_name c (numbered cs).

(** The value a record stores in column [c]; a record shorter than the
    schema reads its missing trailing cells as NULL, as SQLite does. *)
Definition cell (cs : list string) (vs : list sqlval) (c : string) : sqlval :=
  match col_index c cs with Some i => nth i vs VNull | None => VNull end.

(** The [sqlite3.Row] of a [SELECT *]: every column, under its declared name. *)
Definition mk_row (cs : list string) (vs : list sqlval) : row :=
  map (fun ci => (fst ci, nth (snd ci) vs VNull)) (numbered cs).

Definition col_affinity (tb : table) (c : string) : affinity :=
  match col_index c (cols tb) with Some i => affinity_of (nth i (types tb) "") | None => ABlob end.

Definition col_coll_name (tb : table) (c : string) : string :=
  match col_index c (cols tb) with Some i => nth i (colls tb) "" | None => "" end.

(** The collation of column [c] of [tb]; [None] when [tb] has no such
    column or its COLLATE clause names no collation SQLite knows. *)
Definition column_collation (tb : table) (c : string) : option collation :=
  match col_index c (cols tb) with
  | Some i => collation_named (nth i (colls tb) "")
  | None => None
  end.

Section Comparison.
Context {SQ : Sqlite}.

(** NUMERIC affinity on a comparison operand: a text that spells a
    number becomes that number. *)
Definition numeric_affinity (v : sqlval) : sqlval :=
  match v with
  | VText s => match sqlite_numeric s with Some n => n | None => v end
  | _ => v
  end.

(** TEXT affinity on a comparison operand: a number becomes its text. *)
Definition text_affinity (v : sqlval) : sqlval :=
  match v with
  | VInt z => VText (z_str z)
  | VReal r => VText (sqlite_real_text r)
  | _ => v
  end.

(** The operands of [x = y] once OP_Eq has applied the comparison's
    affinity (a column's against a parameter or literal: the column's):
    NUMERIC, INTEGER and REAL convert the texts; TEXT converts the
    numbers when one operand is a text; BLOB converts nothing. *)
Definition cmp_operands (aff : affinity) (x y : sqlval) : sqlval * sqlval :=
  match aff with
  | ABlob => (x, y)
  | AText => if is_text x || is_text y then (text_affinity x, text_affinity y) else (x, y)
  | _ => (numeric_affinity x, numeric_affinity y)
  end.

(** SQL [x = y] in a WHERE clause: NULL equals nothing. *)
Definition sql_eq (aff : affinity) (coll : collation) (x y : sqlval) : bool :=
  match x, y with
  | VNull, _ | _, VNull => false
  | _, _ =>
      let '(x', y') := cmp_operands aff x y in
      match mem_compare coll x' y' with Eq => true | _ => false end
  end.

(** [c = v] on the record [vs] of [tb], [coll] being [c]'s collation. *)
Definition row_matches (tb : table) (coll : collation) (c : string) (v : sqlval)
  (vs : list sqlval) : bool :=
  sql_eq (col_affinity tb c) coll (cell (cols tb) vs c) v.

(** [SELECT * FROM t WHERE c = v], records in table order. SQLite
    resolves the table, then the column, and looks the column's collation
    up while preparing the statement. *)
Definition select_where (d : db) (t c : string) (v : sqlval) : res (list row) :=
  match find_table d t with
  | None => Raise (SqliteError ("no such table: " ++ t))
  | Some tb =>
      match col_index c (cols tb) with
      | None => Raise (SqliteError ("no such column: " ++ c))
      | Some _ =>
          match column_collation tb c with
          | None => Raise (SqliteError ("no such collation sequence: " ++ col_coll_name tb c))
          | Some coll => Ok (map (mk_row (cols tb)) (filter (row_matches tb coll c v) (rows tb)))
          end
      end
  end.
End Comparison.

(** ** ORDER BY *)

(** The value of column [c] of a fetched row. *)
Definition col_of (c : string) (r : row) : sqlval :=
  match lookup_name c r with Some v => v | None => VNull end.

(** [ORDER BY c]: rows compare on column [c] under its collation. *)
Definition row_leb (coll : collation) (c : string) (r1 r2 : row) : bool :=
  match mem_compare coll (col_of c r1) (col_of c r2) with Gt => false | _ => true end.

(** [ORDER BY c1, c2]: rows compare on [c1]; rows equal there on [c2]. *)
Definition row_leb2 (k1 k2 : collation) (c1 c2 : string) (r1 r2 : row) : bool :=
  match mem_compare k1 (col_of c1 r1) (col_of c1 r2) with
  | Lt => true
  | Gt => false
  | Eq => row_leb k2 c2 r1 r2
  end.

(** SQLite's sorter puts the rows in order; rows that compare equal come
    out in an order it does not specify, here in table order (a stable
    insertion sort). No property below depends on that order. *)
Fixpoint insert_le (le : row -> row -> bool) (r : row) (l : list row) : list row :=
  match l with
  | [] => [r]
  | r' :: l' => if le r r' then r :: l else r' :: insert_le le r l'
  end.

Fixpoint sort_le (le : row -> row -> bool) (l : list row) : list row :=
  match l with [] => [] | r :: l' => insert_le le r (sort_le le l') end.

Section Queries.
Context {SQ : Sqlite}.

(** [SELECT * FROM t WHERE c = v ORDER BY o]: the names of the WHERE
    clause are resolved before those of the ORDER BY clause. *)
Definition select_where_order (d : db) (t c : string) (v : sqlval) (o : string) : res (list row) :=
  match find_table d t with
  | None => Raise (SqliteError ("no such table: " ++ t))
  | Some tb =>
      match col_index c (cols tb), col_index o (cols tb) with
      | None, _ => Raise (SqliteError ("no such column: " ++ c))
      | _, None => Raise (SqliteError ("no such column: " ++ o))
      | Some _, Some _ =>
          match column_collation tb c, column_collation tb o with
          | None, _ => Raise (SqliteError ("no such collation sequence: " ++ col_coll_name tb c))
          | _, None => Raise (SqliteError ("no such collation sequence: " ++ col_coll_name tb o))
          | Some kc, Some ko =>
              Ok (sort_le (row_leb ko o)
                    (map (mk_row (cols tb)) (filter (row_matches tb kc c v) (rows tb))))
          end
      end
  end.
End Queries.

(** [SELECT * FROM t ORDER BY o] *)
Definition select_all_order (d : db) (t o : string) : res (list row) :=
  match find_table d t with
  | None => Raise (SqliteError ("no such table: " ++ t))
  | Some tb =>
      match col_index o (cols tb) with
      | None => Raise (SqliteError ("no such column: " ++ o))
      | Some _ =>
          match column_collation tb o with
          | None => Raise (SqliteError ("no such collation sequence: " ++ col_coll_name tb o))
          | Some ko => Ok (sort_le (row_leb ko o) (map (mk_row (cols tb)) (rows tb)))
          end
      end
  end.

(** [SELECT * FROM t ORDER BY o1, o2] *)
Definition select_all_order2 (d : db) (t o1 o2 : string) : res (list row) :=
  match find_table d t with
  | None => Raise (SqliteError ("no such table: " ++ t))
  | Some tb =>
      match col_index o1 (cols tb), col_index o2 (cols tb) with
      | None, _ => Raise (SqliteError ("no such column: " ++ o1))
      | _, None => Raise (SqliteError ("no such column: " ++ o2))
      | Some _, Some _ =>
          match column_collation tb o1, column_collation tb o2 with
          | None, _ => Raise (SqliteError ("no such collation sequence: " ++ col_coll_name tb o1))
          | _, None => Raise (SqliteError ("no such collation sequence: " ++ col_coll_name tb o2))
          | Some k1, Some k2 => Ok (sort_le (row_leb2 k1 k2 o1 o2) (map (mk_row (cols tb)) (rows tb)))
          end
      end
  end.

(** [SELECT key, value FROM settings]: each row carries the two columns
    under their declared names. *)
Definition select_key_value (d : db) : res (list row) :=
  match find_table d "settings" with
  | None => Raise (SqliteError "no such table: settings")
  | Some tb =>
      match col_index "key" (cols tb), col_index "value" (cols tb) with
      | None, _ => Raise (SqliteError "no such column: key")
      | _, None => Raise (SqliteError "no such column: value")
      | Some i, Some j =>
          Ok (map (fun vs => [(nth i (cols tb) "", nth i vs VNull); (nth j (cols tb) "", nth j vs VNull)])
                  (rows tb))
      end
  end.

(** [get_db_connection()]: [sqlite3.connect(DATABASE)]. *)
Definition get_db_connection (d : db) : M unit :=
  if db_opens d then ret tt
  else ([], Raise (SqliteError "unable to open database file")).

(** ** Python values *)

Section PythonValues.
Context {PF : PyFloat}.

(** Python [==] on the values sqlite3 hands back: an int and a float
    compare by their exact values; None, str and bytes only equal their
    own kind. *)
Definition py_eqb (a b : sqlval) : bool :=
  match a, b with
  | VNull, VNull => true
  | VText x, VText y => String.eqb x y
  | VBlob x, VBlob y => String.eqb x y
  | _, _ =>
      match num_of a, num_of b with
      | Some x, Some y => match num_compare x y with Eq => true | _ => false end
      | _, _ => false
      end
  end.

Definition hex_digit (n : nat) : ascii := ascii_of_nat (if (n <? 10)%nat then 48 + n else 87 + n).

(** One byte inside the repr of a bytes object quoted with [q]. *)
Definition bytes_char (q a : ascii) : string :=
  let n := nat_of_ascii a in
  if Ascii.eqb a q || Ascii.eqb a "\"%char then String "\"%char (String a EmptyString)
  else if (n =? 9)%nat then "\t"
  else if (n =? 10)%nat then "\n"
  else if (n =? 13)%nat then "\r"
  else if (n <? 32)%nat || (127 <=? n)%nat
  then String "\"%char (String "x"%char (String (hex_digit (n / 16)) (String (hex_digit (n mod 16)) EmptyString)))
  else String a EmptyString.

(** [repr(b)] of a bytes object: single quotes, unless it holds a single
    quote and no double quote. *)
Definition bytes_repr (b : string) : string :=
  let cs := list_ascii_of_string b in
  let dq := ascii_of_nat 34 in
  let q := if existsb (Ascii.eqb "'"%char) cs && negb (existsb (Ascii.eqb dq) cs) then dq else "'"%char in
  "b" ++ String q (fold_right (fun a acc => bytes_char q a ++ acc) (String q EmptyString) cs).

(** [str(v)] (and an f-string field) of a value sqlite3 returns. *)
Definition py_str (v : sqlval) : string :=
  match v with
  | VNull => "None"
  | VInt z => z_str z
  | VReal r => float_repr r
  | VText s => s
  | VBlob b => bytes_repr b
  end.
End PythonValues.

(** Truth value of a value sqlite3 returns. *)
Definition py_truthy (v : sqlval) : bool :=
  match v with
  | VNull => false
  | VInt z => negb (Z.eqb z 0)
  | VReal (RZero _) => false
  | VReal _ => true
  | VText s => negb (String.eqb s "")
  | VBlob b => negb (String.eqb b "")
  end.

Definition py_type_name (v : sqlval) : string :=
  match v with
  | VNull => "NoneType" | VInt _ => "int" | VReal _ => "float" | VText _ => "str" | VBlob _ => "bytes"
  end.
(** ** [get_site_settings] *)

(** A Python dict, in insertion order; keys are the values sqlite3 returns. *)
Definition dict := list (sqlval * sqlval).

Fixpoint dict_get (k : sqlval) (d : dict) : option sqlval :=
  match d with
  | [] => None
  | (k', v) :: d' => if py_eqb k k' then Some v else dict_get k d'
  end.

Definition dict_mem (k : sqlval) (d : dict) : bool := existsb (py_eqb k) (map fst d).

(** [d[k] = v]: an existing key keeps its place, a new one goes last. *)
Fixpoint dict_set (d : dict) (k v : sqlval) : dict :=
  match d with
  | [] => [(k, v)]
  | (k', v') :: d' => if py_eqb k k' then (k', v) :: d' else (k', v') :: dict_set d' k v
  end.

(** 'Dutch Dawg®', the registered sign in UTF-8 (0xC2 0xAE). *)
Definition dutch_dawg : string :=
  "Dutch Dawg" ++ String (ascii_of_nat 194) (String (ascii_of_nat 174) EmptyString).

(** The [defaults] dict of Method 2, in its order. *)
Definition defaults : list (string * string) :=
  [("company_name", "Freak-n-Fries");
   ("tagline", "Home of the Dutch frikandel in the US");
   ("phone", "440 453 1877");
   ("email", "info@freaknfries.com");
   ("product_name", dutch_dawg)].

(** The literal dict of Method 3 and of the [except Exception] branch. *)
Definition default_settings : dict :=
  [(VText "company_name", VText "Freak-n-Fries");
   (VText "tagline", VText "Home of the Dutch frikandel in the US");
   (VText "phone", VText "440 453 1877");
   (VText "email", VText "info@freaknfries.com");
   (VText "product_name", VText dutch_dawg)].

(** [settings_row[k] if k in settings_row.keys() else dflt] *)
Definition field_or_default (settings_row : row) (k dflt : string) : sqlval :=
  if in_cols k (row_keys settings_row) then
    match lookup_name k settings_row with Some v => v | None => VText dflt end
  else VText dflt.

(** The dict built by Method 1 from the fixed-identity row. *)
Definition primary_settings (settings_row : row) : dict :=
  [(VText "company_name", field_or_default settings_row "company_name" "Freak-n-Fries");
   (VText "tagline", field_or_default settings_row "tagline" "Home of the Dutch frikandel in the US");
   (VText "phone", field_or_default settings_row "phone" "440 453 1877");
   (VText "email", field_or_default settings_row "email" "info@freaknfries.com");
   (VText "product_name", field_or_default settings_row "product_name" dutch_dawg)].

Definition method1_sql : string := "SELECT * FROM settings WHERE id = 1".
Definition method2_sql : string := "SELECT key, value FROM settings".

(** Truth value of a fetched [sqlite3.Row] (falsy when it has no column). *)
Definition row_truthy (r : row) : bool := match r with [] => false | _ => true end.

(** Method 1: [Some s] is [return site_settings]; [None] falls through. *)
Definition method1 (q1 : res (list row)) : M (option dict) :=
  try_except
    (rs <- execute method1_sql q1 ;;
     match hd_error rs with
     | Some settings_row =>
         if row_truthy settings_row then ret (Some (primary_settings settings_row))
         else ret None
     | None => ret None
     end)
    is_sqlite_error
    (fun e1 => _ <- print ("Method 1 failed: " ++ exn_msg e1) ;; ret None).

(** [for row in settings_rows: site_settings[row['key']] = row['value']] *)
Fixpoint load_pairs (site_settings : dict) (settings_rows : list row) : M dict :=
  match settings_rows with
  | [] => ret site_settings
  | r :: rs =>
      v <- row_get r "value" ;;
      k <- row_get r "key" ;;
      load_pairs (dict_set site_settings k v) rs
  end.

(** [for key, default_value in defaults.items(): if key not in ...] *)
Definition fill_defaults (site_settings : dict) : dict :=
  fold_left (fun sd kd =>
               if dict_mem (VText (fst kd)) sd then sd
               else dict_set sd (VText (fst kd)) (VText (snd kd)))
            defaults site_settings.

(** Method 2: the key/value shape. *)
Definition method2 (q2 : res (list row)) : M (option dict) :=
  try_except
    (settings_rows <- execute method2_sql q2 ;;
     match settings_rows with
     | [] => ret None
     | _ :: _ => sd <- load_pairs [] settings_rows ;; ret (Some (fill_defaults sd))
     end)
    is_sqlite_error
    (fun e2 => _ <- print ("Method 2 failed: " ++ exn_msg e2) ;; ret None).

(** The body of [get_site_settings] once [conn] is the outcome of
    [get_db_connection()] and [q1], [q2] the outcomes of its two queries
    ([conn.close()] in [finally] has no observable effect here). *)
Definition get_site_settings_with (conn : M unit) (q1 q2 : res (list row)) : M dict :=
  _ <- conn ;;
  try_except
    (o1 <- method1 q1 ;;
     match o1 with
     | Some site_settings => ret site_settings
     | None =>
         o2 <- method2 q2 ;;
         match o2 with
         | Some site_settings => ret site_settings
         | None => _ <- print "Using fallback default values" ;; ret default_settings
         end
     end)
    (fun _ => true)
    (fun e => _ <- print ("Database error in get_site_settings: " ++ exn_msg e) ;;
              ret default_settings).

(** ** Templates *)

(** A value handed to a template: a settings dict, a fetched row or
    [None], a list of rows. *)
Inductive ctx_value :=
| CDict (s : dict)
| COptRow (r : option row)
| CRows (rs : list row).

(** Keyword arguments of [render_template], in order. *)
Definition kwargs := list (string * ctx_value).

(** What Flask and Jinja do with a template beyond the code: whether
    loading template [name] raises (TemplateNotFound, a syntax error),
    whether rendering it with a context raises, and whether
    [render_template] loads the template before it runs the context
    processors (Flask 2.2 and later) or after them (earlier versions). *)
Class Jinja := {
  template_load : string -> option exn;
  template_render : string -> kwargs -> option exn;
  load_before_context : bool
}.

Definition raise_opt (o : option exn) : M unit :=
  match o with Some e => ([], Raise e) | None => ret tt end.

Section App.
Context {SQ : Sqlite} {PF : PyFloat} {JJ : Jinja}.


Definition get_site_settings (d : db) : M dict :=
  get_site_settings_with (get_db_connection d)
    (select_where d "settings" "id" (VInt 1)) (select_key_value d).

(** All five recognized keys are keys of the dict. *)
Definition five_keys_present (s : dict) : bool :=
  forallb (fun kd => dict_mem (VText (fst kd)) s) defaults.


(** ** Data access: [get_page], [get_page_content], the retailers and
    the testimonials. Each opens its connection before its [try]. *)

Definition get_page (d : db) (slug : string) : M (option row) :=
  _ <- get_db_connection d ;;
  try_except
    (rs <- execute "SELECT * FROM pages WHERE slug = ?" (select_where d "pages" "slug" (VText slug)) ;;
     ret (hd_error rs))
    is_sqlite_error
    (fun e => _ <- print ("Error getting page " ++ slug ++ ": " ++ exn_msg e) ;; ret None).

Definition get_page_content (d : db) (page_name : string) : M (option row) :=
  _ <- get_db_connection d ;;
  try_except
    (rs <- execute "SELECT * FROM page_content WHERE page_name = ?"
             (select_where d "page_content" "page_name" (VText page_name)) ;;
     ret (hd_error rs))
    is_sqlite_error
    (fun e => _ <- print ("Error getting page content " ++ page_name ++ ": " ++ exn_msg e) ;; ret None).

Definition get_retailers_by_category (d : db) (category : string) : M (list row) :=
  _ <- get_db_connection d ;;
  try_except
    (execute "SELECT * FROM retailers WHERE category = ? ORDER BY name"
       (select_where_order d "retailers" "category" (VText category) "name"))
    is_sqlite_error
    (fun e => _ <- print ("Error getting retailers for category " ++ category ++ ": " ++ exn_msg e) ;;
              ret []).

Definition get_testimonials (d : db) : M (list row) :=
  _ <- get_db_connection d ;;
  try_except
    (execute "SELECT * FROM testimonials WHERE active = 1"
       (select_where d "testimonials" "active" (VInt 1)))
    is_sqlite_error
    (fun e => _ <- print ("Error getting testimonials: " ++ exn_msg e) ;; ret []).


Definition get_all_retailers (d : db) : M (list row) :=
  _ <- get_db_connection d ;;
  try_except
    (execute "SELECT * FROM retailers ORDER BY category, name"
       (select_all_order2 d "retailers" "category" "name"))
    is_sqlite_error
    (fun e => _ <- print ("Error getting all retailers: " ++ exn_msg e) ;; ret []).

(** ** The views *)

(** The context processor [inject_global_vars]. *)
Definition inject_global_vars (d : db) : M kwargs :=
  site_settings <- get_site_settings d ;;
  ret [("site_settings", CDict site_settings); ("settings", CDict site_settings)].

(** What the views other than [index] return: a rendered template with
    its keyword arguments, or a body with a status code. *)
Inductive view_response :=
| Render (template : string) (ctx : kwargs)
| Body (text : string) (status : Z).

(** [render_template(name, **ctx)]: Flask loads the template and runs the
    context processor (in the order of its version), then renders the
    template; the view's own arguments take precedence over the
    processor's values, which are equal to them here. *)
Definition render_template (d : db) (name : string) (ctx : kwargs) : M view_response :=
  _ <- (if load_before_context then raise_opt (template_load name) else ret tt) ;;
  _ <- inject_global_vars d ;;
  _ <- (if load_before_context then ret tt else raise_opt (template_load name)) ;;
  _ <- raise_opt (template_render name ctx) ;;
  ret (Render name ctx).

(** The context [index] hands to [render_template('index.html', ...)]
    ([settings] is the same dict as [site_settings]). *)
Record index_context := {
  ic_site_settings : dict;
  ic_home_content : option row;
  ic_testimonial : option row
}.

Definition index_kwargs (ic : index_context) : kwargs :=
  [("site_settings", CDict (ic_site_settings ic)); ("settings", CDict (ic_site_settings ic));
   ("home_content", COptRow (ic_home_content ic)); ("testimonial", COptRow (ic_testimonial ic))].

(** What the home route returns: the rendered [index.html] with its
    context, or a plain-text body with a status. *)
Inductive response :=
| Rendered (template : string) (ctx : index_context)
| TextResponse (body : string) (status : Z).

Definition index (d : db) : M response :=
  try_except
    (site_settings <- get_site_settings d ;;
     home_content <- get_page_content d "home" ;;
     testimonials <- get_testimonials d ;;
     let testimonial := hd_error testimonials in
     let ic := {| ic_site_settings := site_settings;
                  ic_home_content := home_content;
                  ic_testimonial := testimonial |} in
     _ <- render_template d "index.html" (index_kwargs ic) ;;
     ret (Rendered "index.html" ic))
    (fun _ => true)
    (fun e => _ <- print ("Error in index route: " ++ exn_msg e) ;;
              ret (TextResponse ("Error loading home page: " ++ exn_msg e) 500)).

Section Views.
(** [str(site_settings)] as the f-strings print it (Python's repr of a dict). *)
Variable dict_str : dict -> string.

Definition about (d : db) : M view_response :=
  try_except
    (site_settings <- get_site_settings d ;;
     page <- get_page d "about" ;;
     about_content <- get_page_content d "about" ;;
     _ <- print "About route - site_settings type: <class 'dict'>" ;;
     _ <- print ("About route - site_settings: " ++ dict_str site_settings) ;;
     render_template d "about.html"
       [("site_settings", CDict site_settings); ("settings", CDict site_settings);
        ("page", COptRow page); ("about_content", COptRow about_content)])
    (fun _ => true)
    (fun e => _ <- print ("Error in about route: " ++ exn_msg e) ;;
              ret (Body ("Error loading about page: " ++ exn_msg e) 500)).

Definition where_to_buy (d : db) : M view_response :=
  try_except
    (site_settings <- get_site_settings d ;;
     page <- get_page d "where-to-buy" ;;
     where_content <- get_page_content d "where-to-buy" ;;
     online_retailers <- get_retailers_by_category d "online" ;;
     restaurants <- get_retailers_by_category d "restaurant" ;;
     _ <- print "Where-to-buy route - site_settings type: <class 'dict'>" ;;
     _ <- print ("Where-to-buy route - site_settings: " ++ dict_str site_settings) ;;
     render_template d "where-to-buy.html"
       [("site_settings", CDict site_settings); ("settings", CDict site_settings);
        ("page", COptRow page); ("where_content", COptRow where_content);
        ("online_retailers", CRows online_retailers); ("restaurants", CRows restaurants);
        ("retailer", CRows online_retailers); ("restaurant", CRows restaurants)])
    (fun _ => true)
    (fun e => _ <- print ("Error in where_to_buy route: " ++ exn_msg e) ;;
              ret (Body ("Error loading where to buy page: " ++ exn_msg e) 500)).
End Views.

Definition admin (d : db) : M view_response :=
  try_except
    (site_settings <- get_site_settings d ;;
     retailers <- get_all_retailers d ;;
     testimonials <- get_testimonials d ;;
     _ <- get_db_connection d ;;
     pages <- try_except
                (execute "SELECT * FROM pages ORDER BY slug" (select_all_order d "pages" "slug"))
                is_sqlite_error
                (fun e => _ <- print ("Error getting pages: " ++ exn_msg e) ;; ret []) ;;
     render_template d "admin.html"
       [("site_settings", CDict site_settings); ("settings", CDict site_settings);
        ("retailers", CRows retailers); ("testimonials", CRows testimonials);
        ("pages", CRows pages)])
    (fun _ => true)
    (fun e => _ <- print ("Error in admin route: " ++ exn_msg e) ;;
              ret (Body ("Error loading admin page: " ++ exn_msg e) 500)).

(** [s[k]]: a missing key raises KeyError. *)
Definition dict_getitem (s : dict) (k : sqlval) : M sqlval :=
  match dict_get k s with
  | Some v => ret v
  | None => ([], Raise (OtherError ("'" ++ py_str k ++ "'")))
  end.

(** The 404 handler ([error] is unused). *)
Definition not_found (d : db) : M view_response :=
  site_settings <- get_site_settings d ;;
  company_name <- dict_getitem site_settings (VText "company_name") ;;
  ret (Body ("Page not found - " ++ py_str company_name) 404).

(** The 500 handler ([error] is unused). *)
Definition internal_error (d : db) : M view_response :=
  site_settings <- get_site_settings d ;;
  company_name <- dict_getitem site_settings (VText "company_name") ;;
  ret (Body ("Internal server error - " ++ py_str company_name) 500).
End App.

(** What a template hands to the [strftime] filter: a value read from
    SQLite (sqlite3 returns dates stored as text as [str]), or a
    [datetime] object of type [D], always truthy. *)
Inductive filter_arg (D : Type) :=
| FromDb (v : sqlval)
| DateObj (dt : D).
Arguments FromDb {D} v.
Arguments DateObj {D} dt.

(** The [strftime] template filter; [strftime dt fmt] is the method of
    [datetime]. A value without that method raises AttributeError. *)
Definition strftime_filter {D} (strftime : D -> string -> string) (date : filter_arg D) (fmt : string)
  : M string :=
  match date with
  | DateObj dt => ret (strftime dt fmt)
  | FromDb v =>
      if py_truthy v
      then ([], Raise (OtherError ("'" ++ py_type_name v ++ "' object has no attribute 'strftime'")))
      else ret ""
  end.

(** ** The static exporter [freeze.py] *)

(** The JSON object [generate_deployment_info] dumps. *)
Record deployment_info := {
  generated_at : string;
  python_version : string;
  flask_version : string;
  pages_generated : list string;
  deployment_target : string;
  instructions : list string
}.

(** File contents: text, the JSON manifest, or a page or asset whose
    bytes the model does not track. *)
Inductive content :=
| CText (s : string)
| CManifest (info : deployment_info)
| COpaque (what : string).

(** The working directory: its directories and its files, by relative path. *)
Record fs := { fs_dirs : list string; fs_files : list (string * content) }.

(** A step of the exporter: it prints, changes the files, may raise. *)
Definition FS (A : Type) : Type := fs -> (list event * fs * res A)%type.

Definition sret {A} (a : A) : FS A := fun s => ([], s, Ok a).

Definition sbind {A B} (m : FS A) (k : A -> FS B) : FS B :=
  fun s =>
    match m s with
    | (l, s1, Ok a) => let '(l', s2, r) := k a s1 in ((l ++ l')%list, s2, r)
    | (l, s1, Raise e) => (l, s1, Raise e)
    end.

Definition sprint (line : string) : FS unit := fun s => ([Print line], s, Ok tt).

(** [os.path.exists] *)
Definition path_exists (s : fs) (p : string) : bool :=
  in_cols p (fs_dirs s) || existsb (fun f => String.eqb (fst f) p) (fs_files s).

Definition file_content (s : fs) (p : string) : option content := assoc p (fs_files s).

Definition build_dir : string := "build".   (* app.config['FREEZER_DESTINATION'] *)

Definition under_build (p : string) : bool :=
  String.eqb p build_dir || String.prefix (build_dir ++ "/") p.

(** [shutil.rmtree(build_dir)] *)
Definition rmtree_build (s : fs) : fs :=
  {| fs_dirs := filter (fun p => negb (under_build p)) (fs_dirs s);
     fs_files := filter (fun f => negb (under_build (fst f))) (fs_files s) |}.

(** [os.makedirs(build_dir, exist_ok=True)] *)
Definition makedirs_build (s : fs) : fs :=
  if in_cols build_dir (fs_dirs s) then s
  else {| fs_dirs := fs_dirs s ++ [build_dir]; fs_files := fs_files s |}.

(** [open(os.path.join(build_dir, name), 'w')] and a write: the file is
    replaced; without a build directory [open] raises. *)
Definition write_build_file (name : string) (c : content) : FS unit :=
  fun s =>
    let p := build_dir ++ "/" ++ name in
    if in_cols build_dir (fs_dirs s) then
      ([], {| fs_dirs := fs_dirs s;
              fs_files := filter (fun f => negb (String.eqb (fst f) p)) (fs_files s) ++ [(p, c)] |},
       Ok tt)
    else ([], s, Raise (OtherError ("No such file or directory: '" ++ p ++ "'"))).

Definition clean_build_directory : FS unit :=
  fun s =>
    if path_exists s build_dir then
      ([Print ("Cleaning existing build directory: " ++ build_dir)], makedirs_build (rmtree_build s), Ok tt)
    else ([], makedirs_build s, Ok tt).

Definition nl : string := String (ascii_of_nat 10) EmptyString.
Definition dq : string := String (ascii_of_nat 34) EmptyString.

Definition robots_txt : string :=
  "User-agent: *" ++ nl ++ "Allow: /" ++ nl ++ nl ++
  "Sitemap: https://www.freaknfries.com/sitemap.xml" ++ nl.

Definition sitemap_url (loc freq prio : string) : string :=
  "    <url>" ++ nl ++
  "        <loc>" ++ loc ++ "</loc>" ++ nl ++
  "        <changefreq>" ++ freq ++ "</changefreq>" ++ nl ++
  "        <priority>" ++ prio ++ "</priority>" ++ nl ++
  "    </url>" ++ nl.

Definition sitemap_xml : string :=
  "<?xml version=" ++ dq ++ "1.0" ++ dq ++ " encoding=" ++ dq ++ "UTF-8" ++ dq ++ "?>" ++ nl ++
  "<urlset xmlns=" ++ dq ++ "http://www.sitemaps.org/schemas/sitemap/0.9" ++ dq ++ ">" ++ nl ++
  sitemap_url "https://www.freaknfries.com/" "weekly" "1.0" ++
  sitemap_url "https://www.freaknfries.com/about" "monthly" "0.8" ++
  sitemap_url "https://www.freaknfries.com/where-to-buy" "weekly" "0.9" ++
  "</urlset>" ++ nl.

Definition prepare_build_directory : FS unit :=
  sbind (write_build_file ".nojekyll" (CText "")) (fun _ =>
  sbind (write_build_file "robots.txt" (CText robots_txt)) (fun _ =>
  write_build_file "sitemap.xml" (CText sitemap_xml))).

Definition optimize_static_files : FS unit :=
  sbind (sprint "Optimizing static files...") (fun _ =>
  sprint "Static file optimization complete.").

Definition deployment_instructions : list string :=
  ["1. Commit all files in the build/ directory to your repository";
   "2. Push to the main branch";
   "3. Enable GitHub Pages in repository settings";
   "4. Set source to " ++ dq ++ "Deploy from a branch" ++ dq ++ " and select " ++ dq ++ "main" ++ dq ++ " branch";
   "5. Your site will be available at https://yourusername.github.io/repository-name/"].

(** The dict of [generate_deployment_info]; [now], [python_version] and
    [flask_version] are [datetime.now().isoformat()], [sys.version] and
    [flask.__version__] at the time of the run. *)
Definition deployment_info_of (now pyv flv : string) : deployment_info :=
  {| generated_at := now;
     python_version := pyv;
     flask_version := flv;
     pages_generated := ["/"; "/about"; "/where-to-buy"];
     deployment_target := "GitHub Pages";
     instructions := deployment_instructions |}.

Definition generate_deployment_info (now pyv flv : string) : FS unit :=
  write_build_file "deployment-info.json" (CManifest (deployment_info_of now pyv flv)).

Definition required_files : list string :=
  ["index.html"; "about/index.html"; "where-to-buy/index.html";
   "static/css/style.css"; "static/js/main.js"].

Definition missing_files (s : fs) : list string :=
  filter (fun f => negb (path_exists s (build_dir ++ "/" ++ f))) required_files.

(** [validate_build] (the emoji prefixes of its messages are left out). *)
Definition validate_build : FS bool :=
  fun s =>
    match missing_files s with
    | [] => ([Print "All required files generated successfully!"], s, Ok true)
    | missing =>
        (Print "Missing files in build:" :: map (fun f => Print ("  - " ++ f)) missing, s, Ok false)
    end.

(** The top-level names [app.py] defines (its imports included). *)
Definition app_module_names : list string :=
  ["Flask"; "render_template"; "request"; "redirect"; "url_for"; "flash";
   "sqlite3"; "os"; "app"; "DATABASE"; "get_db_connection"; "get_site_settings";
   "get_page"; "get_page_content"; "get_retailers_by_category"; "get_all_retailers";
   "get_testimonials"; "strftime_filter"; "inject_global_vars"; "index"; "about";
   "where_to_buy"; "admin"; "not_found"; "internal_error"; "get_local_ip"].

(** [from app import name] *)
Definition import_from_app (name : string) : FS unit :=
  fun s =>
    if in_cols name app_module_names then ([], s, Ok tt)
    else ([], s, Raise (ImportError ("cannot import name '" ++ name ++ "' from 'app'"))).

Section Exporter.
(** [init_db()] as the exporter expects it from [app], and
    [freezer.freeze()] of Frozen-Flask over the registered generators:
    both are left open, so results about [main] hold for every choice. *)
Variable init_db : FS unit.
Variable freeze : FS unit.
Variables now pyv flv : string.

Definition main : FS Z :=
  sbind (sprint "Starting static site generation for Freak 'n Fries...") (fun _ =>
  sbind (import_from_app "init_db") (fun _ =>
  sbind init_db (fun _ =>
  sbind clean_build_directory (fun _ =>
  sbind (sprint "Generating static HTML files...") (fun _ =>
  sbind freeze (fun _ =>
  sbind prepare_build_directory (fun _ =>
  sbind optimize_static_files (fun _ =>
  sbind (generate_deployment_info now pyv flv) (fun _ =>
  sbind validate_build (fun ok =>
    if ok then sbind (sprint "Static site generation completed successfully!") (fun _ => sret 0%Z)
    else sbind (sprint "Build validation failed. Please check the errors above.") (fun _ => sret 1%Z))))))))))).
End Exporter.

(** [exit(main())]: the returned code, or 1 when an exception escapes. *)
Definition exit_status (r : res Z) : Z :=
  match r with Ok n => n | Raise _ => 1%Z end.

(** ** The static-file generator of [freeze.py] *)

(** [p] with the prefix [pre] removed, when [pre] is a prefix of [p]. *)
Fixpoint strip_prefix (pre p : string) : option string :=
  match pre, p with
  | EmptyString, _ => Some p
  | String a pre', String b p' => if Ascii.eqb a b then strip_prefix pre' p' else None
  | _, _ => None
  end.

Definition has_slash (n : string) : bool :=
  existsb (fun a => Ascii.eqb a "/"%char) (list_ascii_of_string n).

(** The name of [p] inside [dir], when [p] lies right under [dir]. *)
Definition child_name (dir p : string) : option string :=
  match strip_prefix (dir ++ "/") p with
  | Some n => if has_slash n || String.eqb n "" then None else Some n
  | None => None
  end.

(** [os.listdir(dir)]: the directories and files right under [dir]. *)
Definition listdir (s : fs) (dir : string) : res (list string) :=
  if in_cols dir (fs_dirs s) then
    Ok (flat_map (fun p => match child_name dir p with Some n => [n] | None => [] end)
                 (fs_dirs s ++ map fst (fs_files s)))
  else Raise (OtherError ("No such file or directory: '" ++ dir ++ "'")).

(** The [(endpoint, filename)] pairs yielded for the names [ns] of a subfolder. *)
Definition yield_static (sub : string) (ns : list string) : list (string * string) :=
  map (fun n => ("static", sub ++ "/" ++ n)) ns.

(** The generator [static_files] run to its end: what it yielded, and
    whether it stopped normally or raised ([app.static_folder] is the
    folder [static] of the working directory). *)
Definition static_files (s : fs) : list (string * string) * res unit :=
  match listdir s "static/css" with
  | Raise e => ([], Raise e)
  | Ok css =>
      let y1 := yield_static "css" css in
      match listdir s "static/js" with
      | Raise e => (y1, Raise e)
      | Ok js =>
          let y2 := (y1 ++ yield_static "js" js)%list in
          if path_exists s "static/images" then
            match listdir s "static/images" with
            | Raise e => (y2, Raise e)
            | Ok imgs => ((y2 ++ yield_static "images" imgs)%list, Ok tt)
            end
          else (y2, Ok tt)
      end
  end.

(** ** The setup script [setup.py] (emoji prefixes of its messages left out) *)
Module Setup.

(** [try: m except Exception as e: h(e)] *)
Definition stry {A} (m : FS A) (h : exn -> FS A) : FS A :=
  fun s =>
    match m s with
    | (l, s1, Raise e) => let '(l', s2, r) := h e s1 in ((l ++ l')%list, s2, r)
    | o => o
    end.

(** Python's order on tuples of ints. *)
Fixpoint tuple_ltb (a b : list Z) : bool :=
  match a, b with
  | _, [] => false
  | [], _ :: _ => true
  | x :: a', y :: b' => if (x <? y)%Z then true else if (y <? x)%Z then false else tuple_ltb a' b'
  end.

(** [version_info] holds the numeric fields of [sys.version_info] (the
    comparison with [(3, 7)] never reaches the others), [version] is
    [sys.version.split()[0]]. *)
Definition check_python_version (version_info : list Z) (version : string) : FS bool :=
  if tuple_ltb version_info [3; 7]%Z
  then sbind (sprint "Python 3.7 or higher is required") (fun _ => sret false)
  else sbind (sprint ("Python " ++ version ++ " detected")) (fun _ => sret true).

(** [p] and its parent directories, outermost first. *)
Fixpoint ancestors_from (acc : string) (p : string) : list string :=
  match p with
  | EmptyString => [acc]
  | String a p' =>
      if Ascii.eqb a "/"%char then acc :: ancestors_from (acc ++ String a EmptyString) p'
      else ancestors_from (acc ++ String a EmptyString) p'
  end.

Definition ancestors (p : string) : list string := ancestors_from "" p.

Definition is_file (s : fs) (p : string) : bool :=
  existsb (fun f => String.eqb (fst f) p) (fs_files s).

Definition add_dir (ds : list string) (p : string) : list string :=
  if in_cols p ds then ds else (ds ++ [p])%list.

(** [os.makedirs(p, exist_ok=True)]: a file in the way raises. *)
Definition makedirs (p : string) : FS unit :=
  fun s =>
    if is_file s p then ([], s, Raise (OtherError ("[Errno 17] File exists: '" ++ p ++ "'")))
    else if existsb (is_file s) (ancestors p)
    then ([], s, Raise (OtherError ("[Errno 20] Not a directory: '" ++ p ++ "'")))
    else ([], {| fs_dirs := fold_left add_dir (ancestors p) (fs_dirs s); fs_files := fs_files s |}, Ok tt).

Fixpoint for_each (l : list string) (f : string -> FS unit) : FS unit :=
  match l with
  | [] => sret tt
  | x :: l' => sbind (f x) (fun _ => for_each l' f)
  end.

Definition directories : list string :=
  ["static/css"; "static/js"; "static/images"; "templates"; "data"; "build"].

Definition create_directory_structure : FS bool :=
  sbind (sprint "Creating directory structure...") (fun _ =>
  sbind (for_each directories (fun directory =>
           sbind (makedirs directory) (fun _ => sprint ("  Created: " ++ directory ++ "/")))) (fun _ =>
  sret true)).

(** [subprocess.check_call([sys.executable, '-m', 'pip', ...])]:
    [pip_result] is [None] when pip exits with 0, and [Some msg] when it
    raises CalledProcessError with text [msg]. *)
Definition install_dependencies (pip_result : option string) : FS bool :=
  sbind (sprint "Installing Python dependencies...") (fun _ =>
  match pip_result with
  | None => sbind (sprint "Dependencies installed successfully") (fun _ => sret true)
  | Some msg => sbind (sprint ("Failed to install dependencies: " ++ msg)) (fun _ => sret false)
  end).

(** [init_db] as [setup.py] expects it from [app]. *)
Definition initialize_database (init_db : FS unit) : FS bool :=
  sbind (sprint "Initializing database...") (fun _ =>
  stry (sbind (import_from_app "init_db") (fun _ =>
        sbind init_db (fun _ =>
        sbind (sprint "Database initialized successfully") (fun _ => sret true))))
       (fun e => sbind (sprint ("Failed to initialize database: " ++ exn_msg e)) (fun _ => sret false))).

(** The lines of a text, each ended by a newline. *)
Definition lines (l : list string) : string := fold_right (fun x acc => x ++ nl ++ acc) "" l.

Definition env_content : string :=
  lines ["# Flask Environment Configuration"; "FLASK_APP=app.py"; "FLASK_ENV=development";
         "FLASK_DEBUG=True"; "";
         "# Secret key for Flask sessions (change this in production!)";
         "SECRET_KEY=change-this-to-a-secure-random-key"; "";
         "# Database configuration"; "DATABASE_URL=sqlite:///data/site.db"; "";
         "# Site configuration"; "SITE_NAME=Freak-n-Fries Inc."; "SITE_URL=https://www.freaknfries.com"; "";
         "# Contact information"; "CONTACT_EMAIL=info@freaknfries.com"; "CONTACT_PHONE=440 453 1877"; "";
         "# Social media"; "FACEBOOK_URL=www.facebook.com/freaknfries"].

Definition gitignore_content : string :=
  lines ["# Python"; "__pycache__/"; "*.py[cod]"; "*$py.class"; "*.so"; ".Python"; "env/"; "venv/";
         "ENV/"; "env.bak/"; "venv.bak/"; "";
         "# Flask"; "instance/"; ".webassets-cache"; "";
         "# Environment variables"; ".env"; ".env.local"; ".env.development.local"; ".env.test.local";
         ".env.production.local"; "";
         "# IDEs"; ".vscode/"; ".idea/"; "*.swp"; "*.swo"; "*~"; "";
         "# OS"; ".DS_Store"; ".DS_Store?"; "._*"; ".Spotlight-V100"; ".Trashes"; "ehthumbs.db";
         "Thumbs.db"; "";
         "# Project specific"; "data/site.db"; "*.log"; "";
         "# Don't ignore the build directory (needed for GitHub Pages)"; "# build/"].

(** [if not os.path.exists(path): open(path, 'w').write(text)], as
    [create_env_file] and [create_gitignore] both do. *)
Definition write_if_absent (path text : string) : FS unit :=
  fun s =>
    if path_exists s path then ([Print (path ++ " already exists, skipping...")], s, Ok tt)
    else ([Print ("Created " ++ path)],
          {| fs_dirs := fs_dirs s;
             fs_files := (filter (fun f => negb (String.eqb (fst f) path)) (fs_files s) ++ [(path, CText text)])%list |},
          Ok tt).

Definition create_env_file : FS unit := write_if_absent ".env" env_content.

Definition create_gitignore : FS unit := write_if_absent ".gitignore" gitignore_content.

(** [get_root] is [client.get('/').status_code] of Flask's test client. *)
Definition test_flask_app (get_root : FS Z) : FS bool :=
  sbind (sprint "Testing Flask application...") (fun _ =>
  stry (sbind (import_from_app "app") (fun _ =>
        sbind get_root (fun code =>
          if (code =? 200)%Z
          then sbind (sprint "Flask app is working correctly") (fun _ => sret true)
          else sbind (sprint ("Flask app returned status code: " ++ z_str code)) (fun _ => sret false))))
       (fun e => sbind (sprint ("Failed to test Flask app: " ++ exn_msg e)) (fun _ => sret false))).

Definition print_next_steps : FS unit :=
  for_each
    [nl ++ "Setup completed successfully!"; nl ++ "Next steps:";
     "1. Activate your virtual environment:";
     "   venv\Scripts\activate  (Windows)"; "   source venv/bin/activate  (macOS/Linux)";
     nl ++ "2. Start the development server:"; "   python app.py";
     nl ++ "3. Open your browser and visit:"; "   http://localhost:5000";
     nl ++ "4. Access the admin interface at:"; "   http://localhost:5000/admin";
     nl ++ "5. When ready to deploy, generate static files:"; "   python freeze.py";
     nl ++ "Documentation:"; "   - Flask: https://flask.palletsprojects.com/";
     "   - Frozen-Flask: https://frozen-flask.readthedocs.io/";
     "   - GitHub Pages: https://pages.github.com/"]
    sprint.

Fixpoint repeat_string (n : nat) (s : string) : string :=
  match n with O => "" | S k => s ++ repeat_string k s end.

Definition main (version_info : list Z) (version : string) (pip_result : option string)
  (init_db : FS unit) (get_root : FS Z) : FS Z :=
  sbind (sprint "Setting up Freak 'n Fries website migration project...") (fun _ =>
  sbind (sprint (repeat_string 60 "=")) (fun _ =>
  sbind (check_python_version version_info version) (fun ok =>
  if negb ok then sret 1%Z else
  sbind create_directory_structure (fun ok =>
  if negb ok then sret 1%Z else
  sbind (install_dependencies pip_result) (fun ok =>
  if negb ok then sret 1%Z else
  sbind create_env_file (fun _ =>
  sbind create_gitignore (fun _ =>
  sbind (initialize_database init_db) (fun ok =>
  if negb ok then sret 1%Z else
  sbind (test_flask_app get_root) (fun ok =>
  if negb ok then sret 1%Z else
  sbind print_next_steps (fun _ => sret 0%Z)))))))))).

End Setup.

(** ** [wsgi.py] and the configuration block of [app.py] *)

Record app_config := { cfg_debug : bool; cfg_database : string }.

(** The configuration [app.py] selects from [os.environ] when imported
    ([os.path.join('data', 'site.db')] on a POSIX host). *)
Definition configure (environ : list (string * string)) : app_config :=
  if in_cols "PYTHONANYWHERE_DOMAIN" (map fst environ)
  then {| cfg_debug := false; cfg_database := "/home/yourusername/freaknfries/data/site.db" |}
  else {| cfg_debug := true; cfg_database := "data/site.db" |}.

Definition username : string := "DutchYankee".
Definition project_path : string := "/home/DutchYankee/freaknfries".

(** [os.environ[k] = v] *)
Definition env_set (environ : list (string * string)) (k v : string) : list (string * string) :=
  if in_cols k (map fst environ)
  then map (fun kv => if String.eqb (fst kv) k then (k, v) else kv) environ
  else (environ ++ [(k, v)])%list.

(** What [wsgi.py] does before it imports [app]: [sys.path] and [os.environ]. *)
Definition wsgi_sys_path (path : list string) : list string :=
  if in_cols project_path path then path else project_path :: path.

Definition wsgi_environ (environ : list (string * string)) : list (string * string) :=
  env_set environ "PYTHONANYWHERE_DOMAIN" (username ++ ".pythonanywhere.com").

(** The configuration of [application], the app [wsgi.py] serves. *)
Definition wsgi_config (environ : list (string * string)) : app_config :=
  configure (wsgi_environ environ).

(** ** Auxiliary definitions for the statements *)

(** One turn of the loop of [fill_defaults]. *)
Definition fill_step (sd : dict) (kd : string * string) : dict :=
  if dict_mem (VText (fst kd)) sd then sd else dict_set sd (VText (fst kd)) (VText (snd kd)).



Definition settings_empty_or_missing (d : db) : Prop :=
  find_table d "settings" = None \/
  exists tb, find_table d "settings" = Some tb /\ rows tb = [].

Section Lookups.
Context {SQ : Sqlite}.

(** No record of table [t] satisfies [c = v]. *)
Definition no_matching_row (d : db) (t c : string) (v : sqlval) : Prop :=
  forall tb, find_table d t = Some tb -> forall coll, column_collation tb c = Some coll ->
  forall vs, In vs (rows tb) -> row_matches tb coll c v vs = false.

(** The shape shared by [get_page] and [get_page_content]. *)
Definition fetch_one (d : db) (sql t c : string) (v : sqlval) (msg : exn -> string) : M (option row) :=
  _ <- get_db_connection d ;;
  try_except
    (rs <- execute sql (select_where d t c v) ;; ret (hd_error rs))
    is_sqlite_error
    (fun e => _ <- print (msg e) ;; ret None).
(** [r] is the row of a record of table [t] that satisfies [c = v]. *)
Definition selected_row (d : db) (t c : string) (v : sqlval) (r : row) : Prop :=
  exists tb coll vs, find_table d t = Some tb /\ column_collation tb c = Some coll /\
    In vs (rows tb) /\ r = mk_row (cols tb) vs /\ row_matches tb coll c v vs = true.
End Lookups.

(** The exception [render_template] raises for template [name] and the
    context [ctx], if any: a template that does not load is never
    rendered. *)
Definition template_error {JJ : Jinja} (name : string) (ctx : kwargs) : option exn :=
  match template_load name with Some e => Some e | None => template_render name ctx end.


Definition final_fs {A} (o : list event * fs * res A) : fs := snd (fst o).
Definition final_res {A} (o : list event * fs * res A) : res A := snd o.

(** The source tree before an export: the static assets, no [build/]. *)
Definition source_tree : fs :=
  {| fs_dirs := ["static"; "static/css"; "static/js"; "templates"; "data"];
     fs_files := [("static/css/style.css", COpaque "css"); ("static/js/main.js", COpaque "js")] |}.


Definition empty_pages_store : db :=
  {| db_opens := true;
     tables := [("pages", {| cols := ["id"; "slug"; "title"]; types := []; colls := []; rows := [] |});
                ("page_content", {| cols := ["id"; "page_name"; "body"]; types := []; colls := []; rows := [] |})] |}.

Definition retailers_table : table :=
  {| cols := ["id"; "name"; "category"; "website"]; types := []; colls := [];
     rows := [[VInt 1; VText "Beta Store"; VText "online"; VText "beta.example"];
              [VInt 2; VText "Joe's Diner"; VText "restaurant"; VNull];
              [VInt 3; VText "Alpha Store"; VText "online"; VText "alpha.example"]] |}.

Definition retailers_store : db :=
  {| db_opens := true; tables := [("retailers", retailers_table)] |}.

Definition testimonials_store : db :=
  {| db_opens := true;
     tables := [("testimonials", {| cols := ["id"; "text"; "active"]; types := []; colls := [];
                                    rows := [[VInt 1; VText "Great!"; VInt 1];
                                             [VInt 2; VText "Meh"; VInt 0]] |})] |}.


(** The build directory is a directory, or nothing lies under it; and no
    file is called [build]. *)
Definition build_tree_ok (s : fs) : bool :=
  negb (existsb (fun f => String.eqb (fst f) build_dir) (fs_files s)) &&
  (in_cols build_dir (fs_dirs s) ||
   forallb (fun p => negb (under_build p)) (fs_dirs s ++ map fst (fs_files s))).

(** No directory lies below [build/]. *)
Definition no_dirs_below_build (s : fs) : bool :=
  forallb (fun p => String.eqb p build_dir || negb (under_build p)) (fs_dirs s).

(** The paths of the files under [build/], in order. *)
Definition build_files (s : fs) : list string :=
  map fst (filter (fun f => under_build (fst f)) (fs_files s)).

(** The steps of the exporter's [main] from the clean-up to the manifest,
    with a freezer that writes nothing. *)
Definition post_processing (now pyv flv : string) : FS unit :=
  sbind clean_build_directory (fun _ =>
  sbind prepare_build_directory (fun _ =>
  sbind optimize_static_files (fun _ =>
  generate_deployment_info now pyv flv))).

(** The value of the last key/value record whose key is [k]. *)
Definition kv_last (cs : list string) (vss : list (list sqlval)) (k : sqlval) : option sqlval :=
  fold_left (fun acc vs => if py_eqb k (cell cs vs "key") then Some (cell cs vs "value") else acc)
            vss None.

(** No file sits where [setup.py] creates a directory or one of its parents. *)
Definition setup_dirs_clear (s : fs) : bool :=
  forallb (fun p => negb (Setup.is_file s p)) (flat_map Setup.ancestors Setup.directories).

(** A key/value settings table that sets [company_name] twice. *)
Definition kv_table : table :=
  {| cols := ["key"; "value"]; types := []; colls := [];
     rows := [[VText "company_name"; VText "Freak-n-Fries Inc."];
              [VText "phone"; VNull];
              [VText "company_name"; VText "Freak-n-Fries LLC"]] |}.

Definition kv_store : db :=
  {| db_opens := true; tables := [("settings", kv_table)] |}.

Definition pages_store : db :=
  {| db_opens := true;
     tables := [("pages", {| cols := ["id"; "slug"; "title"]; types := []; colls := [];
                             rows := [[VInt 1; VText "where-to-buy"; VText "Where to Buy"];
                                      [VInt 2; VText "about"; VText "About"]] |});
                ("retailers", retailers_table)] |}.

(** The files after [write_build_file] has written [c] at path [p]. *)
Definition written_files (p : string) (c : content) (l : list (string * content))
  : list (string * content) :=
  filter (fun f => negb (String.eqb (fst f) p)) l ++ [(p, c)].

(** A tree with a stale [build/] from an earlier export. *)
Definition stale_tree : fs :=
  {| fs_dirs := ["static"; "static/css"; "build"; "build/old"];
     fs_files := [("static/css/style.css", COpaque "css"); ("build/old/page.html", COpaque "stale");
                  ("build/robots.txt", CText "old")] |}.

(** A retailers table whose [category] column is declared
    [TEXT COLLATE NOCASE]. *)
Definition nocase_retailers_store : db :=
  {| db_opens := true;
     tables := [("retailers",
                 {| cols := ["id"; "name"; "category"];
                    types := ["INTEGER"; "TEXT"; "TEXT"];
                    colls := [""; ""; "NOCASE"];
                    rows := [[VInt 1; VText "Beta Store"; VText "online"];
                             [VInt 2; VText "Alpha Store"; VText "Online"]] |})] |}.

(** ** Stand-ins for the examples *)

(** The concrete stores above declare no column type, or compare a text
    with a text under TEXT affinity, so SQLite converts no operand there
    and this stand-in gives the library's results. *)
#[global] Instance example_sqlite : Sqlite | 100 :=
  {| sqlite_numeric := fun _ => None; sqlite_real_text := fun _ => ""; sqlite_numeric_empty := eq_refl |}.

(** The concrete stores hold no REAL. *)
#[global] Instance example_float : PyFloat | 100 := {| float_repr := fun _ => "" |}.

(** The examples take every template to exist and to render. *)
#[global] Instance example_jinja : Jinja | 100 :=
  {| template_load := fun _ => None; template_render := fun _ _ => None; load_before_context := true |}.

(** * Properties *)


(** ** Comparison of values *)

Lemma num_compare_antisym (x y : num) : num_compare y x = CompOpp (num_compare x y).
Proof. destruct x, y; simpl; auto. symmetry; apply Qcompare_antisym. Qed.

Lemma num_compare_refl (x : num) : num_compare x x = Eq.
Proof. destruct x; simpl; auto. apply Qeq_alt, Qeq_refl. Qed.

Lemma num_compare_eq_trans (x y z : num) :
  num_compare x y = Eq -> num_compare y z = Eq -> num_compare x z = Eq.
Proof.
  destruct x, y, z; simpl; try discriminate; auto.
  rewrite <- !Qeq_alt. apply Qeq_trans.
Qed.

Lemma mem_compare_antisym (coll : collation) (a b : sqlval) :
  mem_compare coll b a = CompOpp (mem_compare coll a b).
Proof.
  destruct a as [|z|[n|n|n m e]|x|x], b as [|z'|[n'|n'|n' m' e']|y|y]; simpl;
    try reflexivity;
    first [ apply String.compare_antisym
          | destruct coll; apply String.compare_antisym
          | symmetry; apply Qcompare_antisym
          | destruct n; reflexivity
          | destruct n'; reflexivity
          | destruct n, n'; reflexivity ].
Qed.

Lemma string_compare_refl (s : string) : String.compare s s = Eq.
Proof.
  induction s as [|a s IH]; simpl; [reflexivity|].
  unfold Ascii.compare. rewrite N.compare_refl. exact IH.
Qed.

Lemma string_compare_eqb (s t : string) :
  match String.compare s t with Eq => true | _ => false end = String.eqb s t.
Proof.
  destruct (String.compare s t) eqn:E.
  - apply String.compare_eq_iff in E. subst. symmetry. apply String.eqb_refl.
  - symmetry. apply String.eqb_neq. intros ->. rewrite string_compare_refl in E.
    discriminate.
  - symmetry. apply String.eqb_neq. intros ->. rewrite string_compare_refl in E.
    discriminate.
Qed.

(** A value that compares equal to an integer is a number of that value. *)
Lemma mem_compare_int_eq (coll : collation) (x : sqlval) (k : Z) :
  mem_compare coll x (VInt k) = Eq -> exists p, num_of x = Some p /\ num_compare p (Fin (inject_Z k)) = Eq.
Proof.
  destruct x as [|z|[n|n|n m e]|s|s]; simpl; intros H; try discriminate H; eexists; split;
    try reflexivity; exact H.
Qed.

Lemma mem_compare_one_zero (coll : collation) (x : sqlval) :
  mem_compare coll x (VInt 1) = Eq -> mem_compare coll x (VInt 0) = Eq -> False.
Proof.
  intros H1 H0.
  apply mem_compare_int_eq in H1 as (p & Hp & E1). apply mem_compare_int_eq in H0 as (q & Hq & E0).
  rewrite Hp in Hq. injection Hq as <-.
  assert (E : num_compare (Fin (inject_Z 1)) p = Eq) by (rewrite num_compare_antisym, E1; reflexivity).
  pose proof (num_compare_eq_trans _ _ _ E E0) as F. discriminate F.
Qed.

Section SqlEq.
Context {SQ : Sqlite}.

(** A record that satisfies [c = 1] does not satisfy [c = 0]. *)
Lemma sql_eq_one_zero (aff : affinity) (coll : collation) (x : sqlval) :
  sql_eq aff coll x (VInt 1) = true -> sql_eq aff coll x (VInt 0) = false.
Proof.
  unfold sql_eq. destruct x as [|z|r|s|b]; [discriminate| | | |].
  all: destruct aff; cbn [cmp_operands is_text orb numeric_affinity text_affinity];
    try (destruct (mem_compare coll _ (VInt 1)) eqn:E1; try discriminate; intros _;
         destruct (mem_compare coll _ (VInt 0)) eqn:E0; try reflexivity;
         exfalso; exact (mem_compare_one_zero _ _ E1 E0)).
  all: cbn [mem_compare]; destruct coll; cbn [coll_compare];
    destruct (String.compare _ _) eqn:E1; try discriminate; intros _;
    apply String.compare_eq_iff in E1; rewrite E1; reflexivity.
Qed.

(** A value equal to [1] under SQLite's [=] is truthy in Python. *)
Lemma sql_eq_one_truthy (aff : affinity) (coll : collation) (x : sqlval) :
  sql_eq aff coll x (VInt 1) = true -> py_truthy x = true.
Proof.
  destruct (py_truthy x) eqn:E; [reflexivity|].
  destruct x as [|z|[n|n|n m e]|s|s]; simpl in E; try discriminate E.
  - discriminate.
  - apply negb_false_iff, Z.eqb_eq in E. subst z.
    destruct aff, coll; vm_compute; discriminate.
  - destruct aff, coll; vm_compute; discriminate.
  - apply negb_false_iff, String.eqb_eq in E. subst s.
    destruct aff; unfold sql_eq, cmp_operands, numeric_affinity; try rewrite sqlite_numeric_empty;
      destruct coll; vm_compute; discriminate.
  - apply negb_false_iff, String.eqb_eq in E. subst s.
    destruct aff, coll; vm_compute; discriminate.
Qed.

(** Under BINARY, a column that converts no text compares a text by
    plain equality. *)
Lemma sql_eq_binary_text (aff : affinity) (x : sqlval) (t : string) :
  (aff = ABlob \/ (aff = AText /\ num_of x = None)) ->
  sql_eq aff Binary x (VText t) = py_eqb x (VText t).
Proof.
  intros Haff.
  destruct x as [|z|[n|n|n m e]|s|s];
    destruct Haff as [->|[-> Hn]]; try discriminate Hn; try reflexivity;
    apply string_compare_eqb.
Qed.
End SqlEq.

(** ** Python equality on keys *)

Lemma py_eqb_num (a b : sqlval) (p q : num) :
  num_of a = Some p -> num_of b = Some q ->
  py_eqb a b = match num_compare p q with Eq => true | _ => false end.
Proof.
  destruct a as [|z|[n|n|n m e]|s|s], b as [|z'|[n'|n'|n' m' e']|t|t]; simpl;
    intros Ha Hb; try discriminate; injection Ha as <-; injection Hb as <-; reflexivity.
Qed.

Lemma py_eqb_nonnum (a b : sqlval) :
  (num_of a = None \/ num_of b = None) -> py_eqb a b = true -> a = b.
Proof.
  destruct a as [|z|[n|n|n m e]|s|s], b as [|z'|[n'|n'|n' m' e']|t|t]; simpl;
    intros [H|H] E; try discriminate; try reflexivity;
    apply String.eqb_eq in E; now subst.
Qed.

Lemma py_eqb_refl (a : sqlval) : py_eqb a a = true.
Proof.
  destruct (num_of a) as [p|] eqn:Ea.
  - rewrite (py_eqb_num a a p p Ea Ea), num_compare_refl. reflexivity.
  - destruct a as [|z|[n|n|n m e]|s|s]; try discriminate Ea; simpl; auto using String.eqb_refl.
Qed.

Lemma py_eqb_sym (a b : sqlval) : py_eqb a b = true -> py_eqb b a = true.
Proof.
  destruct (num_of a) as [p|] eqn:Ea, (num_of b) as [q|] eqn:Eb.
  - rewrite (py_eqb_num a b p q Ea Eb), (py_eqb_num b a q p Eb Ea), (num_compare_antisym p q).
    destruct (num_compare p q); simpl; auto.
  - intros H. rewrite (py_eqb_nonnum a b (or_intror Eb) H). apply py_eqb_refl.
  - intros H. rewrite (py_eqb_nonnum a b (or_introl Ea) H). apply py_eqb_refl.
  - intros H. rewrite (py_eqb_nonnum a b (or_introl Ea) H). apply py_eqb_refl.
Qed.

Lemma py_eqb_trans (a b c : sqlval) : py_eqb a b = true -> py_eqb b c = true -> py_eqb a c = true.
Proof.
  intros H1 H2.
  destruct (num_of b) as [q|] eqn:Eb.
  - destruct (num_of a) as [p|] eqn:Ea.
    2:{ rewrite (py_eqb_nonnum a b (or_introl Ea) H1) in Ea. congruence. }
    destruct (num_of c) as [r|] eqn:Ec.
    2:{ rewrite (py_eqb_nonnum b c (or_intror Ec) H2) in Eb. congruence. }
    rewrite (py_eqb_num a b p q Ea Eb) in H1. rewrite (py_eqb_num b c q r Eb Ec) in H2.
    rewrite (py_eqb_num a c p r Ea Ec).
    destruct (num_compare p q) eqn:E1; try discriminate.
    destruct (num_compare q r) eqn:E2; try discriminate.
    rewrite (num_compare_eq_trans _ _ _ E1 E2). reflexivity.
  - rewrite (py_eqb_nonnum a b (or_intror Eb) H1). rewrite <- (py_eqb_nonnum b c (or_introl Eb) H2).
    apply py_eqb_refl.
Qed.

Lemma py_eqb_congr (a b c : sqlval) : py_eqb a b = true -> py_eqb c a = py_eqb c b.
Proof.
  intros H. destruct (py_eqb c a) eqn:E1, (py_eqb c b) eqn:E2; auto.
  - rewrite (py_eqb_trans _ _ _ E1 H) in E2. discriminate.
  - rewrite (py_eqb_trans _ _ _ E2 (py_eqb_sym _ _ H)) in E1. discriminate.
Qed.

Lemma py_eqb_text (a : sqlval) (s : string) : py_eqb a (VText s) = true -> a = VText s.
Proof. apply py_eqb_nonnum. now right. Qed.

(** ** Names, columns and rows *)

Lemma name_eqb_refl (a : string) : name_eqb a a = true.
Proof. apply String.eqb_refl. Qed.

Lemma name_eqb_swap (k1 k2 b : string) : name_eqb k1 b = true -> name_eqb k2 b = name_eqb k2 k1.
Proof. unfold name_eqb. intros H. apply String.eqb_eq in H. now rewrite H. Qed.

Lemma assoc_some_in {A} (k : string) (l : list (string * A)) (v : A) :
  assoc k l = Some v -> In (k, v) l.
Proof.
  induction l as [|[k' v'] l IH]; simpl; [discriminate|].
  destruct (String.eqb k k') eqn:E; [|auto].
  apply String.eqb_eq in E. intros H; injection H as ->. left; now subst.
Qed.

Lemma assoc_ci_some_in {A} (k : string) (l : list (string * A)) (v : A) :
  assoc_ci k l = Some v -> exists k', In (k', v) l /\ name_eqb k k' = true.
Proof.
  induction l as [|[k' v'] l IH]; simpl; [discriminate|].
  destruct (name_eqb k k') eqn:E.
  - intros H; injection H as ->. eauto.
  - intros H. destruct (IH H) as (k'' & Hin & Hn). eauto.
Qed.

Lemma assoc_in_fst {A} (k : string) (l : list (string * A)) :
  In k (map fst l) -> exists v, assoc k l = Some v.
Proof.
  induction l as [|[k' v'] l IH]; simpl; [tauto|].
  destruct (String.eqb k k') eqn:E; [eauto|].
  intros [->|H]; [now rewrite String.eqb_refl in E|auto].
Qed.

Lemma in_combine_seq (cs : list string) (n i : nat) (x : string) :
  In (x, i) (combine cs (seq n (length cs))) -> (n <= i)%nat /\ nth (i - n) cs "" = x.
Proof.
  revert n. induction cs as [|c cs IH]; simpl; intros n; [tauto|].
  intros [H|H].
  - injection H as -> ->. rewrite Nat.sub_diag. auto.
  - destruct (IH (S n) H) as [Hle Hx]. split; [lia|].
    replace (i - n)%nat with (S (i - S n)) by lia. exact Hx.
Qed.

Lemma map_fst_combine_seq (cs : list string) (n : nat) :
  map fst (combine cs (seq n (length cs))) = cs.
Proof. revert n; induction cs as [|c cs IH]; simpl; intros n; [reflexivity|]. now rewrite IH. Qed.

(** The column SQLite resolves [c] to is named [c] up to case. *)
Lemma col_index_name (c : string) (cs : list string) (i : nat) :
  col_index c cs = Some i -> name_eqb c (nth i cs "") = true.
Proof.
  unfold col_index, lookup_name, numbered.
  destruct (assoc c (combine cs (seq 0 (length cs)))) as [j|] eqn:E.
  - intros H; injection H as <-. apply assoc_some_in, in_combine_seq in E as [_ E].
    rewrite Nat.sub_0_r in E. rewrite E. apply name_eqb_refl.
  - intros H. apply assoc_ci_some_in in H as (k' & Hin & Hn).
    apply in_combine_seq in Hin as [_ Hx]. rewrite Nat.sub_0_r in Hx. now rewrite Hx.
Qed.

Lemma col_index_in (c : string) (cs : list string) :
  In c cs -> exists i, col_index c cs = Some i /\ assoc c (numbered cs) = Some i.
Proof.
  intros H. unfold col_index, lookup_name.
  destruct (assoc_in_fst c (numbered cs)) as (i & Hi).
  - unfold numbered. now rewrite map_fst_combine_seq.
  - rewrite Hi. eauto.
Qed.

Lemma assoc_map_snd {A B} (f : A -> B) (k : string) (l : list (string * A)) :
  assoc k (map (fun p => (fst p, f (snd p))) l) = option_map f (assoc k l).
Proof.
  induction l as [|[k' v'] l IH]; simpl; [reflexivity|].
  destruct (String.eqb k k'); [reflexivity|exact IH].
Qed.

Lemma assoc_ci_map_snd {A B} (f : A -> B) (k : string) (l : list (string * A)) :
  assoc_ci k (map (fun p => (fst p, f (snd p))) l) = option_map f (assoc_ci k l).
Proof.
  induction l as [|[k' v'] l IH]; simpl; [reflexivity|].
  destruct (name_eqb k k'); [reflexivity|exact IH].
Qed.

Lemma lookup_name_map_snd {A B} (f : A -> B) (k : string) (l : list (string * A)) :
  lookup_name k (map (fun p => (fst p, f (snd p))) l) = option_map f (lookup_name k l).
Proof.
  unfold lookup_name. rewrite assoc_map_snd, assoc_ci_map_snd.
  destruct (assoc k l); reflexivity.
Qed.

Lemma lookup_mk_row (cs : list string) (vs : list sqlval) (k : string) :
  lookup_name k (mk_row cs vs) = option_map (fun i => nth i vs VNull) (col_index k cs).
Proof. exact (lookup_name_map_snd (fun i => nth i vs VNull) k (numbered cs)). Qed.

(** Reading column [c] of the fetched row of a record reads the record's cell. *)
Lemma col_of_mk_row (cs : list string) (vs : list sqlval) (c : string) :
  col_of c (mk_row cs vs) = cell cs vs c.
Proof. unfold col_of, cell. rewrite lookup_mk_row. now destruct (col_index c cs). Qed.


Lemma lookup_pair_fst {A} (k a b : string) (x y : A) :
  name_eqb k a = true -> name_eqb k b = false -> lookup_name k [(a, x); (b, y)] = Some x.
Proof.
  intros Ha Hb. unfold lookup_name; simpl.
  destruct (String.eqb k a); [reflexivity|].
  destruct (String.eqb k b) eqn:E.
  - apply String.eqb_eq in E; subst b. now rewrite name_eqb_refl in Hb.
  - now rewrite Ha.
Qed.

Lemma lookup_pair_snd {A} (k a b : string) (x y : A) :
  name_eqb k b = true -> name_eqb k a = false -> lookup_name k [(a, x); (b, y)] = Some y.
Proof.
  intros Hb Ha. unfold lookup_name; simpl.
  destruct (String.eqb k a) eqn:E.
  { apply String.eqb_eq in E; subst a. now rewrite name_eqb_refl in Ha. }
  destruct (String.eqb k b); [reflexivity|].
  now rewrite Ha, Hb.
Qed.

(** The two cells of a row of [SELECT key, value] read back under the
    names [key] and [value]. *)
Lemma kv_row_lookup (cs : list string) (i j : nat) (x y : sqlval) :
  col_index "key" cs = Some i -> col_index "value" cs = Some j ->
  lookup_name "key" [(nth i cs "", x); (nth j cs "", y)] = Some x /\
  lookup_name "value" [(nth i cs "", x); (nth j cs "", y)] = Some y.
Proof.
  intros Hi Hj. apply col_index_name in Hi. apply col_index_name in Hj.
  split.
  - apply lookup_pair_fst; [exact Hi|]. now rewrite (name_eqb_swap _ _ _ Hj).
  - apply lookup_pair_snd; [exact Hj|]. now rewrite (name_eqb_swap _ _ _ Hi).
Qed.

Lemma in_cols_In (c : string) (cs : list string) : in_cols c cs = true <-> In c cs.
Proof.
  unfold in_cols. rewrite existsb_exists. split.
  - intros (c' & Hin & E). apply String.eqb_eq in E. now subst.
  - intros Hin. exists c; split; [exact Hin|apply String.eqb_refl].
Qed.

Lemma column_collation_index (tb : table) (c : string) (k : collation) :
  column_collation tb c = Some k -> exists i, col_index c (cols tb) = Some i.
Proof. unfold column_collation. destruct (col_index c (cols tb)); [eauto|discriminate]. Qed.

(** ** Dicts *)




Lemma dict_mem_set_other (d : dict) (k k0 v0 : sqlval) :
  dict_mem k d = true -> dict_mem k (dict_set d k0 v0) = true.
Proof.
  unfold dict_mem. induction d as [|[k' v'] d IH]; simpl; [discriminate|].
  destruct (py_eqb k0 k'); simpl; auto.
  destruct (py_eqb k k'); simpl; auto.
Qed.

Lemma dict_mem_set_self (d : dict) (k v : sqlval) : dict_mem k (dict_set d k v) = true.
Proof.
  unfold dict_mem. induction d as [|[k' v'] d IH]; simpl.
  - now rewrite py_eqb_refl.
  - destruct (py_eqb k k') eqn:E; simpl; rewrite E; simpl; auto.
Qed.

Lemma fill_fold_keeps (L : list (string * string)) (sd : dict) (k : sqlval) :
  dict_mem k sd = true -> dict_mem k (fold_left fill_step L sd) = true.
Proof.
  revert sd; induction L as [|kd L IH]; simpl; auto.
  intros sd H; apply IH; unfold fill_step.
  destruct (dict_mem (VText (fst kd)) sd); [exact H | now apply dict_mem_set_other].
Qed.

Lemma fill_fold_adds (L : list (string * string)) (sd : dict) (kd : string * string) :
  In kd L -> dict_mem (VText (fst kd)) (fold_left fill_step L sd) = true.
Proof.
  revert sd; induction L as [|kd' L IH]; simpl; [tauto|].
  intros sd [->|H]; auto.
  apply fill_fold_keeps; unfold fill_step.
  destruct (dict_mem (VText (fst kd)) sd) eqn:E; auto using dict_mem_set_self.
Qed.


Lemma fill_defaults_five (sd : dict) : five_keys_present (fill_defaults sd) = true.
Proof.
  unfold five_keys_present, fill_defaults.
  change (fun sd kd => if dict_mem (VText (fst kd)) sd then sd
                       else dict_set sd (VText (fst kd)) (VText (snd kd))) with fill_step.
  apply forallb_forall; intros kd Hin. now apply fill_fold_adds.
Qed.


Lemma primary_settings_five (r : row) : five_keys_present (primary_settings r) = true.
Proof. reflexivity. Qed.

Lemma default_settings_five : five_keys_present default_settings = true.
Proof. reflexivity. Qed.

(** ** The three outcomes of each settings strategy *)

Lemma method1_cases (q1 : res (list row)) :
  (exists l, method1 q1 = (l, Ok None)) \/
  (exists l r rs, q1 = Ok (r :: rs) /\ method1 q1 = (l, Ok (Some (primary_settings r)))) \/
  (exists l e, method1 q1 = (l, Raise e)).
Proof.
  unfold method1, try_except, bind, execute, ret, print.
  destruct q1 as [[|r rs]|e]; simpl.
  - left; eauto.
  - destruct (row_truthy r); simpl.
    + right; left; eauto 6.
    + left; eauto.
  - destruct (is_sqlite_error e); simpl; eauto 6.
Qed.

Lemma method2_cases (q2 : res (list row)) :
  (exists l, method2 q2 = (l, Ok None)) \/
  (exists l rs l' sd, q2 = Ok rs /\ load_pairs [] rs = (l', Ok sd) /\
                      method2 q2 = (l, Ok (Some (fill_defaults sd)))) \/
  (exists l e, method2 q2 = (l, Raise e)).
Proof.
  unfold method2, try_except, execute.
  destruct q2 as [[|r rs]|e].
  - left; simpl; eauto.
  - cbv beta iota delta [bind].
    destruct (load_pairs [] (r :: rs)) as [l' [sd|e']] eqn:E; cbv beta iota delta [ret].
    + right; left. do 4 eexists; split; [reflexivity|]. split; [exact E|]. reflexivity.
    + simpl. destruct (is_sqlite_error e'); eauto.
  - cbn [bind]. destruct (is_sqlite_error e); unfold print, ret; simpl; eauto.
Qed.

Lemma get_site_settings_shape (q1 q2 : res (list row)) :
  exists log s, get_site_settings_with (ret tt) q1 q2 = (log, Ok s) /\
    (s = default_settings \/
     (exists r rs, q1 = Ok (r :: rs) /\ s = primary_settings r) \/
     (exists rs l' sd, q2 = Ok rs /\ load_pairs [] rs = (l', Ok sd) /\ s = fill_defaults sd)).
Proof.
  unfold get_site_settings_with. cbn [bind ret].
  destruct (method1_cases q1) as [(l1 & H1)|[(l1 & r & rs & Hq & H1)|(l1 & e1 & H1)]];
    rewrite H1; cbn [bind try_except].
  - destruct (method2_cases q2) as [(l2 & H2)|[(l2 & rs & l' & sd & Hq & Hl & H2)|(l2 & e2 & H2)]];
      rewrite H2; cbn [bind try_except]; unfold print, ret; simpl.
    + eauto.
    + do 2 eexists; split; [reflexivity|]. right; right. exists rs, l', sd; auto.
    + eauto.
  - unfold ret; simpl. do 2 eexists; split; [reflexivity|]. right; left; eauto.
  - unfold print, ret; simpl. eauto.
Qed.

(** ** Where the values of the resolved dict come from *)

Section Stores.
Context {SQ : Sqlite}.


Lemma select_where_empty (d : db) (t c : string) (v : sqlval) (tb : table) (r : row) (rs : list row) :
  find_table d t = Some tb -> rows tb = [] -> select_where d t c v <> Ok (r :: rs).
Proof.
  intros Ht Hr. unfold select_where. rewrite Ht, Hr.
  destruct (col_index c (cols tb)); [|discriminate].
  destruct (column_collation tb c); discriminate.
Qed.
End Stores.

Lemma select_key_value_eq (d : db) (tb : table) (i j : nat) :
  find_table d "settings" = Some tb ->
  col_index "key" (cols tb) = Some i -> col_index "value" (cols tb) = Some j ->
  select_key_value d =
    Ok (map (fun vs => [(nth i (cols tb) "", nth i vs VNull); (nth j (cols tb) "", nth j vs VNull)])
            (rows tb)).
Proof. intros Ht Hi Hj. unfold select_key_value. now rewrite Ht, Hi, Hj. Qed.






(** [k in row.keys()] is an exact test, so [row[k]] then finds the
    column written exactly as [k]. *)
Lemma field_or_default_assoc (r : row) (k dflt : string) :
  field_or_default r k dflt = match assoc k r with Some v => v | None => VText dflt end.
Proof.
  unfold field_or_default, lookup_name.
  destruct (in_cols k (row_keys r)) eqn:E.
  - apply in_cols_In in E. destruct (assoc_in_fst k r E) as (v & Hv). now rewrite Hv.
  - destruct (assoc k r) as [v|] eqn:Hv; [|reflexivity].
    apply assoc_some_in, (in_map fst) in Hv. apply (proj2 (in_cols_In _ _)) in Hv.
    unfold row_keys in E. simpl in Hv. congruence.
Qed.


Section Settings.
Context {SQ : Sqlite}.

Lemma get_site_settings_opened (d : db) :
  db_opens d = true ->
  get_site_settings d =
  get_site_settings_with (ret tt) (select_where d "settings" "id" (VInt 1)) (select_key_value d).
Proof. intros H. unfold get_site_settings, get_db_connection. now rewrite H. Qed.

Lemma get_site_settings_empty_shape (d : db) (s : dict) :
  settings_empty_or_missing d ->
  (s = default_settings \/
   (exists r rs, select_where d "settings" "id" (VInt 1) = Ok (r :: rs) /\ s = primary_settings r) \/
   (exists rs l' sd, select_key_value d = Ok rs /\ load_pairs [] rs = (l', Ok sd) /\
                     s = fill_defaults sd)) ->
  s = default_settings.
Proof.
  intros Hem [->|[(r & rs & Hq & ->)|(rs & l' & sd & Hq & Hl & ->)]].
  - reflexivity.
  - exfalso. destruct Hem as [Hn|(tb & Ht & Hr)].
    + unfold select_where in Hq. rewrite Hn in Hq. discriminate.
    + exact (select_where_empty _ _ _ _ _ _ _ Ht Hr Hq).
  - unfold select_key_value in Hq.
    destruct Hem as [Hn|(tb & Ht & Hr)]; [rewrite Hn in Hq; discriminate|].
    rewrite Ht, Hr in Hq.
    destruct (col_index "key" (cols tb)); [|discriminate].
    destruct (col_index "value" (cols tb)); [|discriminate].
    injection Hq as <-. simpl in Hl. injection Hl as _ <-. reflexivity.
Qed.
End Settings.

(** ** Claims on [get_site_settings] *)

(** C1 (counterexample): when the database file cannot be opened,
    [sqlite3.connect] raises before the [try], and [get_site_settings]
    propagates the error to its caller. *)
Lemma get_site_settings_unopenable_db_raises :
  get_site_settings {| db_opens := false; tables := [] |} =
  ([], Raise (SqliteError "unable to open database file")).
Proof. reflexivity. Qed.

Section SettingsClaims.
Context {SQ : Sqlite}.

(** C1 (amended): once the connection is open, for every outcome of the
    two queries (rows, [sqlite3.Error] or any other exception at any
    step), [get_site_settings] returns normally with a dict that holds all
    five recognized keys. *)
Theorem get_site_settings_never_raises_once_connected (q1 q2 : res (list row)) :
  exists log s, get_site_settings_with (ret tt) q1 q2 = (log, Ok s) /\
                five_keys_present s = true.
Proof.
  destruct (get_site_settings_shape q1 q2)
    as (log & s & Heq & [->|[(r & rs & _ & ->)|(rs & l' & sd & _ & _ & ->)]]);
    exists log; eexists; split; eauto using default_settings_five, primary_settings_five,
                                   fill_defaults_five.
Qed.
End SettingsClaims.


Section SettingsClaims2.
Context {SQ : Sqlite}.

End SettingsClaims2.

(** C3: when the primary-shape query returns the fixed-identity row,
    [get_site_settings] issues no other query and prints nothing (so it
    neither tries the key/value strategy nor falls back to the defaults),
    returns a dict whose keys are exactly the five recognized keys, and
    maps each key to the row's value when the row has that column and to
    the key's built-in default (a string, never NULL) otherwise. A row of
    [SELECT *] has at least one column, hence [r <> []]. *)
Theorem get_site_settings_primary_row (r : row) (rs : list row) (q2 : res (list row))
  (Hr : r <> []) :
  get_site_settings_with (ret tt) (Ok (r :: rs)) q2 =
    ([Query method1_sql], Ok (primary_settings r)) /\
  map fst (primary_settings r) = map (fun kd => VText (fst kd)) defaults /\
  (forall k dflt, In (k, dflt) defaults ->
     dict_get (VText k) (primary_settings r) =
       Some (match assoc k r with Some v => v | None => VText dflt end)).
Proof.
  split; [|split; [reflexivity|]].
  - destruct r as [|c r]; [contradiction|]. reflexivity.
  - intros k dflt Hin. simpl in Hin.
    unfold primary_settings. rewrite !field_or_default_assoc.
    repeat (destruct Hin as [Hin|Hin]; [injection Hin as <- <-; reflexivity|]).
    destruct Hin.
Qed.

(** ** [get_page] and [get_page_content] *)

Lemma filter_none {A} (f : A -> bool) (l : list A) :
  (forall x, In x l -> f x = false) -> filter f l = [].
Proof.
  induction l as [|x l IH]; simpl; intros H; [reflexivity|].
  rewrite (H x (or_introl eq_refl)). apply IH; auto.
Qed.

(** C4 (counterexample): when the database file cannot be opened, both
    lookups raise, since the connection is opened before the [try]. *)
Lemma get_page_unopenable_db_raises :
  get_page {| db_opens := false; tables := [] |} "nonexistent-slug" =
    ([], Raise (SqliteError "unable to open database file")) /\
  get_page_content {| db_opens := false; tables := [] |} "nonexistent-name" =
    ([], Raise (SqliteError "unable to open database file")).
Proof. split; reflexivity. Qed.

Section Pages.
Context {SQ : Sqlite}.

Lemma select_where_error_is_sqlite (d : db) (t c : string) (v : sqlval) (e : exn) :
  select_where d t c v = Raise e -> is_sqlite_error e = true.
Proof.
  unfold select_where. destruct (find_table d t) as [tb|].
  - destruct (col_index c (cols tb)); [|intros H; injection H as <-; reflexivity].
    destruct (column_collation tb c); [discriminate|]. intros H; injection H as <-; reflexivity.
  - intros H; injection H as <-; reflexivity.
Qed.

Lemma select_where_no_match (d : db) (t c : string) (v : sqlval) :
  no_matching_row d t c v ->
  select_where d t c v = Ok [] \/ exists e, select_where d t c v = Raise e.
Proof.
  unfold select_where, no_matching_row. intros H.
  destruct (find_table d t) as [tb|] eqn:Ht; [|eauto].
  destruct (col_index c (cols tb)); [|eauto].
  destruct (column_collation tb c) as [coll|] eqn:Hc; [|eauto].
  left. rewrite (filter_none _ _ (H tb eq_refl coll Hc)). reflexivity.
Qed.

Lemma fetch_one_spec (d : db) (sql t c : string) (v : sqlval) (msg : exn -> string) :
  db_opens d = true ->
  (exists log o, fetch_one d sql t c v msg = (log, Ok o)) /\
  (no_matching_row d t c v -> snd (fetch_one d sql t c v msg) = Ok None) /\
  (forall e, select_where d t c v = Raise e ->
     fetch_one d sql t c v msg = ([Query sql; Print (msg e)], Ok None)).
Proof.
  intros Hopen. unfold fetch_one, get_db_connection. rewrite Hopen.
  unfold bind, ret, try_except, execute, print. simpl.
  split; [|split].
  - destruct (select_where d t c v) as [rs|e] eqn:E; simpl; eauto.
    rewrite (select_where_error_is_sqlite _ _ _ _ _ E). simpl. eauto.
  - intros Hn. destruct (select_where_no_match _ _ _ _ Hn) as [E|(e & E)]; rewrite E; simpl;
      [reflexivity|].
    rewrite (select_where_error_is_sqlite _ _ _ _ _ E). reflexivity.
  - intros e E. rewrite E. simpl. rewrite (select_where_error_is_sqlite _ _ _ _ _ E). reflexivity.
Qed.


(** C4 (amended): once the database opens, [get_page] and
    [get_page_content] never raise; they return [None] when no record
    matches, and on a data error of their query they print the error and
    return [None]. *)
Theorem get_page_lookups_absent_once_connected (d : db) (slug page_name : string)
  (Hopen : db_opens d = true) :
  (exists log o, get_page d slug = (log, Ok o)) /\
  (exists log o, get_page_content d page_name = (log, Ok o)) /\
  (no_matching_row d "pages" "slug" (VText slug) -> snd (get_page d slug) = Ok None) /\
  (no_matching_row d "page_content" "page_name" (VText page_name) ->
     snd (get_page_content d page_name) = Ok None) /\
  (forall e, select_where d "pages" "slug" (VText slug) = Raise e ->
     get_page d slug =
       ([Query "SELECT * FROM pages WHERE slug = ?";
         Print ("Error getting page " ++ slug ++ ": " ++ exn_msg e)], Ok None)) /\
  (forall e, select_where d "page_content" "page_name" (VText page_name) = Raise e ->
     get_page_content d page_name =
       ([Query "SELECT * FROM page_content WHERE page_name = ?";
         Print ("Error getting page content " ++ page_name ++ ": " ++ exn_msg e)], Ok None)).
Proof.
  destruct (fetch_one_spec d "SELECT * FROM pages WHERE slug = ?" "pages" "slug" (VText slug)
              (fun e => "Error getting page " ++ slug ++ ": " ++ exn_msg e) Hopen)
    as (P1 & P2 & P3).
  destruct (fetch_one_spec d "SELECT * FROM page_content WHERE page_name = ?" "page_content"
              "page_name" (VText page_name)
              (fun e => "Error getting page content " ++ page_name ++ ": " ++ exn_msg e) Hopen)
    as (C1 & C2 & C3).
  change (get_page d slug) with
    (fetch_one d "SELECT * FROM pages WHERE slug = ?" "pages" "slug" (VText slug)
       (fun e => "Error getting page " ++ slug ++ ": " ++ exn_msg e)).
  change (get_page_content d page_name) with
    (fetch_one d "SELECT * FROM page_content WHERE page_name = ?" "page_content" "page_name"
       (VText page_name) (fun e => "Error getting page content " ++ page_name ++ ": " ++ exn_msg e)).
  repeat split; auto.
Qed.
End Pages.
(** ** The exporter *)

(** [from app import init_db] fails: [app.py] defines no [init_db]; so
    [main] stops right after its first print, whatever [init_db] and the
    freezer would have done, and leaves the files as they were. *)
Lemma main_stops_at_import (init_db freeze : FS unit) (now pyv flv : string) (s : fs) :
  main init_db freeze now pyv flv s =
    ([Print "Starting static site generation for Freak 'n Fries..."], s,
     Raise (ImportError "cannot import name 'init_db' from 'app'")).
Proof. reflexivity. Qed.

(** C7 (code_bug): an export run raises [ImportError] before it cleans,
    freezes or writes anything, for every behaviour of [init_db] and of
    the freezer; from the source tree none of the five paths the
    validation checks is produced. *)
Theorem main_produces_no_build (init_db freeze : FS unit) (now pyv flv : string) (s : fs) :
  final_res (main init_db freeze now pyv flv s) =
    Raise (ImportError "cannot import name 'init_db' from 'app'") /\
  final_fs (main init_db freeze now pyv flv s) = s /\
  missing_files (final_fs (main init_db freeze now pyv flv source_tree)) = required_files.
Proof. unfold final_res, final_fs. rewrite !main_stops_at_import. repeat split. Qed.

(** C8 (code_bug): [validate_build] itself returns normally, prints every
    missing path by name and answers whether none is missing; but [main]
    never reaches it, and [exit(main())] ends with status 1 on every run,
    also when nothing would be missing. *)
Theorem validate_build_reports_but_exit_always_one :
  (forall s, exists log,
     validate_build s = (log, s, Ok (match missing_files s with [] => true | _ :: _ => false end)) /\
     (forall f, In f (missing_files s) -> In (Print ("  - " ++ f)) log)) /\
  (forall (init_db freeze : FS unit) (now pyv flv : string) (s : fs),
     exit_status (final_res (main init_db freeze now pyv flv s)) = 1%Z).
Proof.
  split.
  - intros s. unfold validate_build. destruct (missing_files s) as [|f0 fs0] eqn:E.
    + eexists; split; [reflexivity|]. intros f [].
    + eexists; split; [reflexivity|]. intros f Hf. right.
      apply in_map_iff. eauto.
  - intros. unfold final_res. now rewrite main_stops_at_import.
Qed.

(** C9 (code_bug): two export runs in a row leave the working directory
    exactly as it was before the first, so files left in [build/] by an
    earlier run are still there afterwards. *)
Theorem main_twice_keeps_stale_files (init_db freeze : FS unit) (now pyv flv : string) (s : fs) :
  final_fs (main init_db freeze now pyv flv s) = s /\
  final_fs (main init_db freeze now pyv flv (final_fs (main init_db freeze now pyv flv s))) = s /\
  (let stale := {| fs_dirs := ["build"]; fs_files := [("build/old-page.html", COpaque "stale")] |} in
   path_exists (final_fs (main init_db freeze now pyv flv
                  (final_fs (main init_db freeze now pyv flv stale)))) "build/old-page.html" = true).
Proof. unfold final_fs. rewrite !main_stops_at_import. repeat split. Qed.

Lemma assoc_written (p : string) (c : content) (l : list (string * content)) :
  assoc p (filter (fun f => negb (String.eqb (fst f) p)) l ++ [(p, c)]) = Some c.
Proof.
  induction l as [|[p' c'] l IH]; simpl.
  - now rewrite String.eqb_refl.
  - destruct (String.eqb p' p) eqn:E; simpl; [exact IH|].
    rewrite String.eqb_sym, E. exact IH.
Qed.

(** C10: whatever the build directory holds (whichever pages were or were
    not rendered), when [generate_deployment_info] writes its manifest,
    the manifest lists the pages ["/"; "/about"; "/where-to-buy"], names
    the target "GitHub Pages" and carries the fixed instructions; when the
    write fails nothing changes. *)
Theorem deployment_info_fixed_pages (now pyv flv : string) (s : fs) :
  match generate_deployment_info now pyv flv s with
  | (_, s', Ok _) =>
      exists info, file_content s' "build/deployment-info.json" = Some (CManifest info) /\
        pages_generated info = ["/"; "/about"; "/where-to-buy"] /\
        deployment_target info = "GitHub Pages" /\
        instructions info = deployment_instructions
  | (_, s', Raise _) => s' = s
  end.
Proof.
  unfold generate_deployment_info, write_build_file.
  destruct (in_cols build_dir (fs_dirs s)); [|reflexivity].
  eexists; split; [apply assoc_written|]. repeat split.
Qed.


(** ** [ORDER BY]: the insertion sort is a sorted permutation *)


Section SortLe.
Variable le : row -> row -> bool.
Hypothesis le_total : forall a b, le a b = false -> le b a = true.

Lemma insert_le_perm (r : row) (l : list row) : Permutation (insert_le le r l) (r :: l).
Proof.
  induction l as [|r' l IH]; simpl; [auto|].
  destruct (le r r'); [auto|].
  eapply perm_trans; [apply perm_skip, IH|apply perm_swap].
Qed.

Lemma sort_le_perm (l : list row) : Permutation (sort_le le l) l.
Proof.
  induction l as [|r l IH]; simpl; [auto|].
  eapply perm_trans; [apply insert_le_perm|auto].
Qed.

Lemma insert_le_sorted (r : row) (l : list row) :
  Sorted (fun a b => le a b = true) l -> Sorted (fun a b => le a b = true) (insert_le le r l).
Proof.
  induction l as [|r' l IH]; simpl; intros H; [auto|].
  destruct (le r r') eqn:E.
  - constructor; [exact H|]. constructor. exact E.
  - inversion H as [|? ? Hs Hd]; subst. constructor; [auto|].
    destruct l as [|r'' l]; simpl; [constructor; now apply le_total|].
    destruct (le r r''); constructor; [now apply le_total|]. now inversion Hd.
Qed.

Lemma sort_le_sorted (l : list row) : Sorted (fun a b => le a b = true) (sort_le le l).
Proof. induction l; simpl; auto using insert_le_sorted. Qed.
End SortLe.

Lemma row_leb_total (coll : collation) (c : string) (a b : row) :
  row_leb coll c a b = false -> row_leb coll c b a = true.
Proof.
  unfold row_leb. rewrite (mem_compare_antisym coll (col_of c a) (col_of c b)).
  destruct (mem_compare coll (col_of c a) (col_of c b)); simpl; congruence.
Qed.

Lemma row_leb2_total (k1 k2 : collation) (c1 c2 : string) (a b : row) :
  row_leb2 k1 k2 c1 c2 a b = false -> row_leb2 k1 k2 c1 c2 b a = true.
Proof.
  unfold row_leb2. rewrite (mem_compare_antisym k1 (col_of c1 a) (col_of c1 b)).
  destruct (mem_compare k1 (col_of c1 a) (col_of c1 b)); simpl; try congruence.
  apply row_leb_total.
Qed.

(** ** Queries guarded by [except sqlite3.Error] *)

Lemma guarded_query_eq {A} (sql : string) (r : res A) (h : exn -> M A) :
  try_except (execute sql r) is_sqlite_error h =
  match r with
  | Ok a => ([Query sql], Ok a)
  | Raise e => if is_sqlite_error e then let '(l', r') := h e in (Query sql :: l', r')
               else ([Query sql], Raise e)
  end.
Proof. destruct r as [a|e]; [reflexivity|]. simpl. destruct (is_sqlite_error e); reflexivity. Qed.

Section Selects.
Context {SQ : Sqlite}.

Lemma select_where_eq (d : db) (t c : string) (v : sqlval) (tb : table) (coll : collation) :
  find_table d t = Some tb -> column_collation tb c = Some coll ->
  select_where d t c v = Ok (map (mk_row (cols tb)) (filter (row_matches tb coll c v) (rows tb))).
Proof.
  intros Ht Hc. destruct (column_collation_index _ _ _ Hc) as (i & Hi).
  unfold select_where. now rewrite Ht, Hi, Hc.
Qed.

(** The rows of [SELECT * ... WHERE c = v] are those of records that
    satisfy [c = v]. *)
Lemma select_where_selected (d : db) (t c : string) (v : sqlval) (rs : list row) :
  select_where d t c v = Ok rs -> Forall (selected_row d t c v) rs.
Proof.
  unfold select_where. destruct (find_table d t) as [tb|] eqn:Ht; [|discriminate].
  destruct (col_index c (cols tb)); [|discriminate].
  destruct (column_collation tb c) as [coll|] eqn:Hc; [|discriminate].
  intros H; injection H as <-. apply Forall_forall. intros r Hr.
  apply in_map_iff in Hr as (vs & <- & Hvs). apply filter_In in Hvs as [Hvs Hm].
  exists tb, coll, vs. auto.
Qed.

Lemma select_where_order_eq (d : db) (t c o : string) (v : sqlval) (tb : table) (kc ko : collation) :
  find_table d t = Some tb -> column_collation tb c = Some kc -> column_collation tb o = Some ko ->
  select_where_order d t c v o =
    Ok (sort_le (row_leb ko o) (map (mk_row (cols tb)) (filter (row_matches tb kc c v) (rows tb)))).
Proof.
  intros Ht Hc Ho. destruct (column_collation_index _ _ _ Hc) as (i & Hi).
  destruct (column_collation_index _ _ _ Ho) as (j & Hj).
  unfold select_where_order. now rewrite Ht, Hi, Hj, Hc, Ho.
Qed.

End Selects.

(** ** [get_retailers_by_category] *)

(** C5 (counterexample): SQL [=] compares under the column's collation.
    With [category] declared [TEXT COLLATE NOCASE], asking for "online"
    also returns the retailer whose category is "Online". *)
Lemma get_retailers_by_category_nocase_match :
  match snd (get_retailers_by_category nocase_retailers_store "online") with
  | Ok rs => map (col_of "category") rs = [VText "Online"; VText "online"] /\
             map (col_of "name") rs = [VText "Alpha Store"; VText "Beta Store"]
  | Raise _ => False
  end.
Proof. vm_compute. split; reflexivity. Qed.

Section Retailers.
Context {SQ : Sqlite}.

(** C5 (amended): once the database opens, with a retailers table whose
    [category] and [name] columns exist and name collations SQLite knows,
    [get_retailers_by_category d category] returns the records whose
    category compares equal to [category] under SQLite's [=] (the
    column's affinity and collation), each once, in ascending order of
    [name] under its collation. When [category] is BINARY and the column
    converts no text (BLOB affinity, or TEXT affinity with no number
    stored), these are exactly the records whose category is the text
    [category]. *)
Theorem get_retailers_by_category_sorted_filter (d : db) (category : string) (tb : table)
  (cc nc : collation)
  (Hopen : db_opens d = true) (Ht : find_table d "retailers" = Some tb)
  (Hcat : column_collation tb "category" = Some cc) (Hname : column_collation tb "name" = Some nc) :
  exists log rs, get_retailers_by_category d category = (log, Ok rs) /\
    Permutation rs
      (map (mk_row (cols tb)) (filter (row_matches tb cc "category" (VText category)) (rows tb))) /\
    Sorted (fun r1 r2 => row_leb nc "name" r1 r2 = true) rs /\
    (cc = Binary ->
     (col_affinity tb "category" = ABlob \/
      (col_affinity tb "category" = AText /\
       Forall (fun vs => num_of (cell (cols tb) vs "category") = None) (rows tb))) ->
     Permutation rs
       (map (mk_row (cols tb))
          (filter (fun vs => py_eqb (cell (cols tb) vs "category") (VText category)) (rows tb)))).
Proof.
  unfold get_retailers_by_category, get_db_connection. rewrite Hopen.
  rewrite (select_where_order_eq d "retailers" "category" "name" (VText category) tb cc nc Ht Hcat Hname).
  eexists; eexists; split; [reflexivity|].
  split; [apply sort_le_perm|].
  split; [apply sort_le_sorted, row_leb_total|].
  intros -> Haff.
  eapply perm_trans; [apply sort_le_perm|].
  replace (filter (fun vs => py_eqb (cell (cols tb) vs "category") (VText category)) (rows tb))
    with (filter (row_matches tb Binary "category" (VText category)) (rows tb)); [apply Permutation_refl|].
  apply filter_ext_in. intros vs Hvs. unfold row_matches. apply sql_eq_binary_text.
  destruct Haff as [Haff|[Haff Hn]]; [now left|right]. split; [exact Haff|].
  rewrite Forall_forall in Hn. now apply Hn.
Qed.
End Retailers.

(** ** [get_testimonials] and the home route *)

Section Testimonials.
Context {SQ : Sqlite} {PF : PyFloat} {JJ : Jinja}.

(** C6: every testimonial [get_testimonials] returns is the row of a
    record whose [active] cell satisfies SQLite's [active = 1] (under the
    column's affinity and collation), does not satisfy [active = 0], and
    is truthy in Python; with the table and its [active] column in place
    the rows are exactly those records', in table order. Whenever the home
    route renders [index.html], the testimonial it hands over is the first
    of the rows [get_testimonials] returned ([None] when there are none). *)
Theorem get_testimonials_active_first (d : db) (log : list event) (ts : list row)
  (H : get_testimonials d = (log, Ok ts)) :
  (forall r, In r ts -> exists tb coll vs,
     find_table d "testimonials" = Some tb /\ column_collation tb "active" = Some coll /\
     In vs (rows tb) /\ r = mk_row (cols tb) vs /\
     row_matches tb coll "active" (VInt 1) vs = true /\
     row_matches tb coll "active" (VInt 0) vs = false /\
     py_truthy (col_of "active" r) = true) /\
  (forall tb coll, find_table d "testimonials" = Some tb -> column_collation tb "active" = Some coll ->
     ts = map (mk_row (cols tb)) (filter (row_matches tb coll "active" (VInt 1)) (rows tb))) /\
  (forall log' ctx, index d = (log', Ok (Rendered "index.html" ctx)) ->
     ic_testimonial ctx = hd_error ts).
Proof.
  split; [|split].
  - intros r Hr.
    unfold get_testimonials, get_db_connection in H. destruct (db_opens d); [|discriminate].
    cbn [bind ret] in H. rewrite guarded_query_eq in H.
    destruct (select_where d "testimonials" "active" (VInt 1)) as [rs|e] eqn:E.
    + injection H as _ <-. apply select_where_selected in E.
      rewrite Forall_forall in E. destruct (E r Hr) as (tb & coll & vs & Ht & Hc & Hvs & -> & Hm).
      exists tb, coll, vs. repeat split; auto.
      * exact (sql_eq_one_zero _ _ _ Hm).
      * rewrite col_of_mk_row. exact (sql_eq_one_truthy _ _ _ Hm).
    + destruct (is_sqlite_error e); simpl in H; [|discriminate].
      injection H as _ <-. destruct Hr.
  - intros tb coll Ht Hc.
    unfold get_testimonials, get_db_connection in H. destruct (db_opens d); [|discriminate].
    cbn [bind ret] in H. rewrite guarded_query_eq in H.
    rewrite (select_where_eq d "testimonials" "active" (VInt 1) tb coll Ht Hc) in H.
    injection H as _ <-. reflexivity.
  - intros log' ctx Hi. unfold index, try_except, bind in Hi.
    destruct (get_site_settings d) as [l1 [s1|e1]]; [|discriminate].
    destruct (get_page_content d "home") as [l2 [c2|e2]]; [|discriminate].
    rewrite H in Hi.
    destruct (render_template d "index.html" _) as [l4 [v4|e4]]; simpl in Hi; [|discriminate].
    injection Hi as _ <-. reflexivity.
Qed.
End Testimonials.

(** * Properties of the rest of the code *)

Section Helpers.
Context {SQ : Sqlite} {PF : PyFloat} {JJ : Jinja}.

(** ** Errors of the queries *)





(** ** Each helper returns normally once the database opens *)

Lemma get_site_settings_ok (d : db) :
  db_opens d = true -> exists log s, get_site_settings d = (log, Ok s) /\ five_keys_present s = true.
Proof.
  intros H. rewrite get_site_settings_opened by exact H.
  destruct (get_site_settings_shape (select_where d "settings" "id" (VInt 1)) (select_key_value d))
    as (log & s & E & Hs).
  exists log, s. split; [exact E|].
  destruct Hs as [->|[(r & rs & _ & ->)|(rs & l' & sd & _ & _ & ->)]];
    eauto using default_settings_five, primary_settings_five, fill_defaults_five.
Qed.

Lemma fetch_one_selected (d : db) (sql t c : string) (v : sqlval) (msg : exn -> string) :
  db_opens d = true ->
  exists log o, fetch_one d sql t c v msg = (log, Ok o) /\
    forall r, o = Some r -> selected_row d t c v r.
Proof.
  intros Hopen. unfold fetch_one, get_db_connection. rewrite Hopen.
  unfold bind, ret, try_except, execute, print. simpl.
  destruct (select_where d t c v) as [rs|e] eqn:E.
  - simpl. do 2 eexists; split; [reflexivity|]. intros r Hr.
    apply select_where_selected in E. rewrite Forall_forall in E. apply E.
    destruct rs as [|r' rs]; [discriminate|]. injection Hr as ->. now left.
  - rewrite (select_where_error_is_sqlite _ _ _ _ _ E). simpl.
    do 2 eexists; split; [reflexivity|]. discriminate.
Qed.

Lemma get_page_ok (d : db) (slug : string) :
  db_opens d = true ->
  exists log o, get_page d slug = (log, Ok o) /\
    forall r, o = Some r -> selected_row d "pages" "slug" (VText slug) r.
Proof.
  exact (fetch_one_selected d "SELECT * FROM pages WHERE slug = ?" "pages" "slug" (VText slug)
           (fun e => "Error getting page " ++ slug ++ ": " ++ exn_msg e)).
Qed.

Lemma get_page_content_ok (d : db) (page_name : string) :
  db_opens d = true ->
  exists log o, get_page_content d page_name = (log, Ok o) /\
    forall r, o = Some r -> selected_row d "page_content" "page_name" (VText page_name) r.
Proof.
  exact (fetch_one_selected d "SELECT * FROM page_content WHERE page_name = ?" "page_content"
           "page_name" (VText page_name)
           (fun e => "Error getting page content " ++ page_name ++ ": " ++ exn_msg e)).
Qed.





Lemma get_all_retailers_eq (d : db) (tb : table) (k1 k2 : collation)
  (Hopen : db_opens d = true) (Ht : find_table d "retailers" = Some tb)
  (Hcat : column_collation tb "category" = Some k1) (Hname : column_collation tb "name" = Some k2) :
  get_all_retailers d =
    ([Query "SELECT * FROM retailers ORDER BY category, name"],
     Ok (sort_le (row_leb2 k1 k2 "category" "name") (map (mk_row (cols tb)) (rows tb)))).
Proof.
  unfold get_all_retailers, get_db_connection. rewrite Hopen.
  destruct (column_collation_index _ _ _ Hcat) as (i & Hi).
  destruct (column_collation_index _ _ _ Hname) as (j & Hj).
  unfold select_all_order2. rewrite Ht, Hi, Hj, Hcat, Hname. reflexivity.
Qed.

(** Once the database opens, [render_template] raises exactly what the
    template raises: the context processor does not fail. *)
Lemma render_template_cases (d : db) (name : string) (ctx : kwargs) :
  db_opens d = true ->
  exists log, render_template d name ctx =
    (log, match template_error name ctx with
          | None => Ok (Render name ctx)
          | Some e => Raise e
          end).
Proof.
  intros Hopen. destruct (get_site_settings_ok d Hopen) as (l & s & E & _).
  unfold render_template, inject_global_vars, template_error. rewrite E.
  destruct load_before_context, (template_load name), (template_render name ctx);
    simpl; eexists; reflexivity.
Qed.
End Helpers.

Ltac render_step Hopen :=
  match goal with
  | |- context [render_template ?d ?n ?c] =>
      let lr := fresh "lr" in let ER := fresh "ER" in
      destruct (render_template_cases d n c Hopen) as (lr & ER); rewrite ER
  | H : context [render_template ?d ?n ?c] |- _ =>
      let lr := fresh "lr" in let ER := fresh "ER" in
      destruct (render_template_cases d n c Hopen) as (lr & ER); rewrite ER in H
  end.

Section Views.
Context {SQ : Sqlite} {PF : PyFloat} {JJ : Jinja}.

(** ** [ORDER BY category, name] *)

(** X1: with a retailers table whose [category] and [name] columns exist
    and name collations SQLite knows, [get_all_retailers] returns every
    row of the table (a permutation of them), ordered by category and,
    within a category, by name, each under its column's collation and
    SQLite's order of values. *)
Theorem get_all_retailers_sorted_permutation (d : db) (tb : table) (k1 k2 : collation)
  (Hopen : db_opens d = true) (Ht : find_table d "retailers" = Some tb)
  (Hcat : column_collation tb "category" = Some k1) (Hname : column_collation tb "name" = Some k2) :
  exists log rs, get_all_retailers d = (log, Ok rs) /\
    Permutation rs (map (mk_row (cols tb)) (rows tb)) /\
    Sorted (fun r1 r2 => row_leb2 k1 k2 "category" "name" r1 r2 = true) rs.
Proof.
  rewrite (get_all_retailers_eq d tb k1 k2 Hopen Ht Hcat Hname).
  eexists; eexists; split; [reflexivity|].
  split; [apply sort_le_perm|]. apply sort_le_sorted. apply row_leb2_total.
Qed.

(** X2: once the database opens, a missing retailers or testimonials
    table makes [get_all_retailers], [get_retailers_by_category] and
    [get_testimonials] print the sqlite error and return an empty list. *)
Theorem list_accessors_missing_tables (d : db) (category : string)
  (Hopen : db_opens d = true)
  (Hr : find_table d "retailers" = None) (Ht : find_table d "testimonials" = None) :
  get_all_retailers d =
    ([Query "SELECT * FROM retailers ORDER BY category, name";
      Print "Error getting all retailers: no such table: retailers"], Ok []) /\
  get_retailers_by_category d category =
    ([Query "SELECT * FROM retailers WHERE category = ? ORDER BY name";
      Print ("Error getting retailers for category " ++ category ++ ": no such table: retailers")], Ok []) /\
  get_testimonials d =
    ([Query "SELECT * FROM testimonials WHERE active = 1";
      Print "Error getting testimonials: no such table: testimonials"], Ok []).
Proof.
  unfold get_all_retailers, get_retailers_by_category, get_testimonials, get_db_connection.
  rewrite Hopen. cbn [bind ret]. rewrite !guarded_query_eq.
  unfold select_all_order2, select_where_order, select_where. rewrite Hr, Ht.
  repeat split.
Qed.

(** X3: when the database file cannot be opened, the accessors that open
    their connection before their [try], the context processor and both
    error handlers raise the sqlite error to their caller. *)
Theorem helpers_raise_when_db_unopenable (d : db) (category : string)
  (Hclosed : db_opens d = false) :
  get_all_retailers d = ([], Raise (SqliteError "unable to open database file")) /\
  get_retailers_by_category d category = ([], Raise (SqliteError "unable to open database file")) /\
  get_testimonials d = ([], Raise (SqliteError "unable to open database file")) /\
  inject_global_vars d = ([], Raise (SqliteError "unable to open database file")) /\
  not_found d = ([], Raise (SqliteError "unable to open database file")) /\
  internal_error d = ([], Raise (SqliteError "unable to open database file")).
Proof.
  unfold get_all_retailers, get_retailers_by_category, get_testimonials, inject_global_vars,
    not_found, internal_error, get_site_settings, get_site_settings_with, get_db_connection.
  rewrite Hclosed. repeat split.
Qed.

(** X4: when the database file cannot be opened, each page view catches
    the error at its boundary and answers with its plain-text message and
    status 500; none of them raises. *)
Theorem views_answer_500_when_db_unopenable (dict_str : dict -> string) (d : db)
  (Hclosed : db_opens d = false) :
  index d = ([Print "Error in index route: unable to open database file"],
             Ok (TextResponse "Error loading home page: unable to open database file" 500)) /\
  about dict_str d = ([Print "Error in about route: unable to open database file"],
             Ok (Body "Error loading about page: unable to open database file" 500)) /\
  where_to_buy dict_str d = ([Print "Error in where_to_buy route: unable to open database file"],
             Ok (Body "Error loading where to buy page: unable to open database file" 500)) /\
  admin d = ([Print "Error in admin route: unable to open database file"],
             Ok (Body "Error loading admin page: unable to open database file" 500)).
Proof.
  unfold index, about, where_to_buy, admin, get_site_settings, get_site_settings_with,
    get_db_connection.
  rewrite Hclosed. repeat split.
Qed.

(** ** The page views once the database opens *)


(** X6: once the database opens, [about] prints the type of the settings
    and then renders [about.html] with its context unless the template
    raises; then it prints the error and answers the error text with
    status 500. The context hands over the resolved settings under both
    names, and the page and content rows, when present, are rows of
    'about'. *)
Theorem about_renders_once_connected (dict_str : dict -> string) (d : db)
  (Hopen : db_opens d = true) :
  exists ctx s,
    snd (get_site_settings d) = Ok s /\
    assoc "site_settings" ctx = Some (CDict s) /\ assoc "settings" ctx = Some (CDict s) /\
    (template_error "about.html" ctx = None ->
       exists log, about dict_str d = (log, Ok (Render "about.html" ctx))) /\
    (forall e, template_error "about.html" ctx = Some e ->
       exists log, about dict_str d = (log, Ok (Body ("Error loading about page: " ++ exn_msg e) 500)) /\
         In (Print ("Error in about route: " ++ exn_msg e)) log) /\
    (forall log r, about dict_str d = (log, r) ->
       In (Print "About route - site_settings type: <class 'dict'>") log) /\
    (forall r, assoc "page" ctx = Some (COptRow (Some r)) -> selected_row d "pages" "slug" (VText "about") r) /\
    (forall r, assoc "about_content" ctx = Some (COptRow (Some r)) ->
       selected_row d "page_content" "page_name" (VText "about") r).
Proof.
  destruct (get_site_settings_ok d Hopen) as (l1 & s & E1 & _).
  destruct (get_page_ok d "about" Hopen) as (l2 & page & E2 & S2).
  destruct (get_page_content_ok d "about" Hopen) as (l3 & ac & E3 & S3).
  exists [("site_settings", CDict s); ("settings", CDict s);
          ("page", COptRow page); ("about_content", COptRow ac)], s.
  split; [now rewrite E1|]. split; [reflexivity|]. split; [reflexivity|].
  split; [|split; [|split; [|split]]].
  - intros Hte. unfold about. rewrite E1, E2, E3. simpl.
    render_step Hopen. rewrite Hte. simpl. eexists; reflexivity.
  - intros e Hte. unfold about. rewrite E1, E2, E3. simpl.
    render_step Hopen. rewrite Hte. simpl. eexists; split; [reflexivity|].
    rewrite !in_app_iff; simpl; tauto.
  - intros log r Ha. unfold about in Ha. rewrite E1, E2, E3 in Ha. simpl in Ha.
    render_step Hopen.
    destruct (template_error _ _); simpl in Ha; injection Ha as <- _; rewrite !in_app_iff; simpl; tauto.
  - intros r Hr. simpl in Hr. injection Hr as Hr. now apply S2.
  - intros r Hr. simpl in Hr. injection Hr as Hr. now apply S3.
Qed.

End Views.

Section Handlers.
Context {SQ : Sqlite} {PF : PyFloat} {JJ : Jinja}.

(** ** The error handlers *)

Lemma dict_mem_get (k : sqlval) (s : dict) : dict_mem k s = true -> exists v, dict_get k s = Some v.
Proof.
  unfold dict_mem. induction s as [|[k' v'] s IH]; simpl; [discriminate|].
  destruct (py_eqb k k'); simpl; eauto.
Qed.

Lemma get_site_settings_empty (d : db) :
  db_opens d = true -> settings_empty_or_missing d ->
  exists log, get_site_settings d = (log, Ok default_settings).
Proof.
  intros Hopen Hem. rewrite get_site_settings_opened by exact Hopen.
  destruct (get_site_settings_shape (select_where d "settings" "id" (VInt 1)) (select_key_value d))
    as (log & s & Heq & Hs).
  exists log. rewrite Heq. do 2 f_equal. exact (get_site_settings_empty_shape d s Hem Hs).
Qed.

(** X8: once the database opens, the 404 and 500 handlers never raise
    (the company name is always a key of the resolved settings): they
    answer "Page not found - " and "Internal server error - " followed by
    the resolved company name, with statuses 404 and 500; with a missing
    or empty settings table that name is 'Freak-n-Fries'. *)
Theorem error_handlers_show_company_name (d : db) (Hopen : db_opens d = true) :
  exists log s v, get_site_settings d = (log, Ok s) /\
    dict_get (VText "company_name") s = Some v /\
    not_found d = (log, Ok (Body ("Page not found - " ++ py_str v) 404)) /\
    internal_error d = (log, Ok (Body ("Internal server error - " ++ py_str v) 500)) /\
    (settings_empty_or_missing d -> v = VText "Freak-n-Fries").
Proof.
  destruct (get_site_settings_ok d Hopen) as (log & s & E & F).
  assert (Hm : dict_mem (VText "company_name") s = true).
  { unfold five_keys_present in F. simpl in F. now apply andb_prop in F as [? _]. }
  destruct (dict_mem_get _ _ Hm) as (v & Hv).
  exists log, s, v. split; [exact E|]. split; [exact Hv|].
  unfold not_found, internal_error, dict_getitem. rewrite E. cbn [bind]. rewrite Hv.
  simpl. rewrite app_nil_r. split; [reflexivity|]. split; [reflexivity|].
  intros Hem. destruct (get_site_settings_empty d Hopen Hem) as (log' & E').
  rewrite E in E'. injection E' as _ ->. simpl in Hv. congruence.
Qed.

(** ** The key/value shape of the settings table *)

Lemma dict_get_set (d : dict) (k k' v : sqlval) :
  dict_get k (dict_set d k' v) = if py_eqb k k' then Some v else dict_get k d.
Proof.
  induction d as [|[k0 v0] d IH]; simpl; [reflexivity|].
  destruct (py_eqb k' k0) eqn:E; simpl.
  - rewrite (py_eqb_congr _ _ k (py_eqb_sym _ _ E)).
    destruct (py_eqb k k'); reflexivity.
  - rewrite IH. destruct (py_eqb k k0) eqn:E0; [|reflexivity].
    destruct (py_eqb k k') eqn:E1; [|reflexivity].
    rewrite (py_eqb_trans _ _ _ (py_eqb_sym _ _ E1) E0) in E. discriminate.
Qed.

Lemma dict_get_mem (k v : sqlval) (s : dict) : dict_get k s = Some v -> dict_mem k s = true.
Proof.
  unfold dict_mem. induction s as [|[k' v'] s IH]; simpl; [discriminate|].
  destruct (py_eqb k k'); simpl; auto.
Qed.

Lemma dict_get_congr (k k' : sqlval) (s : dict) : py_eqb k k' = true -> dict_get k s = dict_get k' s.
Proof.
  intros H. induction s as [|[k0 v0] s IH]; simpl; [reflexivity|].
  rewrite IH. destruct (py_eqb k k0) eqn:E1, (py_eqb k' k0) eqn:E2; auto.
  - rewrite (py_eqb_trans _ _ _ (py_eqb_sym _ _ H) E1) in E2. discriminate.
  - rewrite (py_eqb_trans _ _ _ H E2) in E1. discriminate.
Qed.

Lemma dict_mem_get_congr (k k' : sqlval) (s : dict) :
  py_eqb k k' = true -> dict_mem k' s = true -> exists v, dict_get k s = Some v.
Proof.
  intros H Hm. destruct (dict_mem_get _ _ Hm) as (v & Hv). exists v.
  now rewrite (dict_get_congr _ _ s H).
Qed.

Lemma fill_fold_get (k : sqlval) (L : list (string * string)) (sd : dict) :
  dict_get k (fold_left fill_step L sd) =
  match dict_get k sd with
  | Some v => Some v
  | None => dict_get k (map (fun kd => (VText (fst kd), VText (snd kd))) L)
  end.
Proof.
  revert sd; induction L as [|[key dflt] L IH]; intros sd; simpl.
  - destruct (dict_get k sd); reflexivity.
  - rewrite IH. unfold fill_step; simpl.
    destruct (dict_mem (VText key) sd) eqn:Em.
    + destruct (dict_get k sd) eqn:Eg; [reflexivity|].
      destruct (py_eqb k (VText key)) eqn:Ek; [|reflexivity].
      destruct (dict_mem_get_congr _ _ _ Ek Em) as (v & Hv). congruence.
    + rewrite dict_get_set. destruct (py_eqb k (VText key)) eqn:Ek.
      * apply py_eqb_text in Ek; subst k.
        destruct (dict_get (VText key) sd) eqn:Eg; [|reflexivity].
        apply dict_get_mem in Eg. congruence.
      * destruct (dict_get k sd); reflexivity.
Qed.

Lemma fill_defaults_get (k : sqlval) (sd : dict) :
  dict_get k (fill_defaults sd) =
  match dict_get k sd with Some v => Some v | None => dict_get k default_settings end.
Proof. exact (fill_fold_get k defaults sd). Qed.

Lemma load_pairs_kv {X : Type} (f : X -> row) (kf vf : X -> sqlval) (xs : list X) (sd : dict) :
  (forall x, lookup_name "key" (f x) = Some (kf x)) ->
  (forall x, lookup_name "value" (f x) = Some (vf x)) ->
  exists sd',
    load_pairs sd (map f xs) = ([], Ok sd') /\
    forall k, dict_get k sd' =
      fold_left (fun acc x => if py_eqb k (kf x) then Some (vf x) else acc) xs (dict_get k sd).
Proof.
  intros Hk Hv. revert sd; induction xs as [|x xs IH]; intros sd; simpl.
  - exists sd; split; reflexivity.
  - destruct (IH (dict_set sd (kf x) (vf x))) as (sd' & E & G).
    exists sd'. split.
    + unfold row_get. rewrite Hk, Hv. cbn [bind ret]. rewrite E. reflexivity.
    + intros k. rewrite G, dict_get_set. reflexivity.
Qed.

Lemma method1_no_row (q1 : res (list row)) :
  (forall r rs, q1 <> Ok (r :: rs)) -> (forall e, q1 = Raise e -> is_sqlite_error e = true) ->
  exists l, method1 q1 = (l, Ok None).
Proof.
  intros H1 H2. unfold method1, try_except, bind, execute, ret, print.
  destruct q1 as [[|r rs]|e]; simpl; [eauto|exfalso; now apply (H1 r rs)|].
  rewrite (H2 e eq_refl). simpl. eauto.
Qed.

Lemma cell_index (cs : list string) (vs : list sqlval) (c : string) (i : nat) :
  col_index c cs = Some i -> cell cs vs c = nth i vs VNull.
Proof. intros H. unfold cell. now rewrite H. Qed.

(** X10: with a non-empty key/value settings table and no row of id 1,
    [get_site_settings] maps each key to the value of the last row that
    carries it (a later row overrides an earlier one, a NULL value
    included); a recognized key carried by no row maps to its default, and
    any other key is absent. *)
Theorem get_site_settings_key_value_last_wins (d : db) (tb : table)
  (Hopen : db_opens d = true) (Ht : find_table d "settings" = Some tb)
  (Hkey : In "key" (cols tb)) (Hval : In "value" (cols tb))
  (Hno1 : forall r rs, select_where d "settings" "id" (VInt 1) <> Ok (r :: rs))
  (Hne : rows tb <> []) :
  exists log s, get_site_settings d = (log, Ok s) /\
    forall k, dict_get k s =
      match kv_last (cols tb) (rows tb) k with
      | Some v => Some v
      | None => dict_get k default_settings
      end.
Proof.
  rewrite get_site_settings_opened by exact Hopen.
  destruct (method1_no_row (select_where d "settings" "id" (VInt 1)) Hno1
              (select_where_error_is_sqlite d "settings" "id" (VInt 1))) as (l1 & H1).
  destruct (col_index_in _ _ Hkey) as (i & Hi & _).
  destruct (col_index_in _ _ Hval) as (j & Hj & _).
  rewrite (select_key_value_eq d tb i j Ht Hi Hj).
  destruct (load_pairs_kv
              (fun vs => [(nth i (cols tb) "", nth i vs VNull); (nth j (cols tb) "", nth j vs VNull)])
              (fun vs => cell (cols tb) vs "key") (fun vs => cell (cols tb) vs "value") (rows tb) [])
    as (sd & El & Eg).
  { intros vs. rewrite (cell_index _ _ _ _ Hi). exact (proj1 (kv_row_lookup _ _ _ _ _ Hi Hj)). }
  { intros vs. rewrite (cell_index _ _ _ _ Hj). exact (proj2 (kv_row_lookup _ _ _ _ _ Hi Hj)). }
  assert (H2 : method2 (Ok (map (fun vs => [(nth i (cols tb) "", nth i vs VNull);
                                            (nth j (cols tb) "", nth j vs VNull)]) (rows tb))) =
                ([Query method2_sql], Ok (Some (fill_defaults sd)))).
  { unfold method2, try_except, execute. cbn [bind].
    unfold row in El. rewrite El. destruct (rows tb) as [|vs0 vss]; [contradiction|]. reflexivity. }
  unfold get_site_settings_with. cbn [bind ret]. rewrite H1. cbn [bind]. rewrite H2.
  simpl. eexists; eexists; split; [reflexivity|].
  intros k. rewrite fill_defaults_get, Eg. reflexivity.
Qed.
End Handlers.
(** ** The exporter's file steps *)

Lemma filter_keep_all {A} (f : A -> bool) (l : list A) :
  (forall x, In x l -> f x = true) -> filter f l = l.
Proof.
  induction l as [|x l IH]; simpl; intros H; [reflexivity|].
  rewrite (H x (or_introl eq_refl)). f_equal. apply IH. intros y Hy. apply H. now right.
Qed.

Lemma filter_drop_all {A} (f : A -> bool) (l : list A) :
  (forall x, In x l -> f x = false) -> filter f l = [].
Proof.
  induction l as [|x l IH]; simpl; intros H; [reflexivity|].
  rewrite (H x (or_introl eq_refl)). apply IH. intros y Hy. apply H. now right.
Qed.

Lemma assoc_written_other (p q : string) (c : content) (l : list (string * content)) :
  p <> q -> assoc p (written_files q c l) = assoc p l.
Proof.
  unfold written_files. intros Hne. induction l as [|[p' c'] l IH]; simpl.
  - apply String.eqb_neq in Hne. now rewrite Hne.
  - destruct (String.eqb p' q) eqn:E; simpl.
    + apply String.eqb_eq in E; subst p'. apply String.eqb_neq in Hne. rewrite Hne. exact IH.
    + rewrite IH. reflexivity.
Qed.

Lemma written_fresh (p : string) (c : content) (l : list (string * content)) :
  ~ In p (map fst l) -> written_files p c l = (l ++ [(p, c)])%list.
Proof.
  intros Hn. unfold written_files. f_equal. apply filter_keep_all.
  intros f Hf. destruct (String.eqb (fst f) p) eqn:E; [|reflexivity].
  apply String.eqb_eq in E. exfalso. apply Hn. rewrite <- E. now apply in_map.
Qed.

Lemma write_build_file_in_build (name : string) (c : content) (s : fs) :
  in_cols build_dir (fs_dirs s) = true ->
  write_build_file name c s =
    ([], {| fs_dirs := fs_dirs s; fs_files := written_files (build_dir ++ "/" ++ name) c (fs_files s) |},
     Ok tt).
Proof. intros Hb. unfold write_build_file. now rewrite Hb. Qed.

Lemma prepare_build_directory_in_build (s : fs) :
  in_cols build_dir (fs_dirs s) = true ->
  prepare_build_directory s =
    ([], {| fs_dirs := fs_dirs s;
            fs_files := written_files "build/sitemap.xml" (CText sitemap_xml)
                          (written_files "build/robots.txt" (CText robots_txt)
                             (written_files "build/.nojekyll" (CText "") (fs_files s))) |},
     Ok tt).
Proof.
  intros Hb. unfold prepare_build_directory, sbind.
  rewrite write_build_file_in_build by exact Hb. cbn beta iota.
  rewrite write_build_file_in_build by exact Hb. cbn beta iota.
  rewrite write_build_file_in_build by exact Hb. reflexivity.
Qed.

Lemma clean_build_directory_spec (s : fs) :
  build_tree_ok s = true ->
  exists log s', clean_build_directory s = (log, s', Ok tt) /\
    fs_files s' = filter (fun f => negb (under_build (fst f))) (fs_files s) /\
    In build_dir (fs_dirs s') /\
    (forall p, In p (fs_dirs s') -> p = build_dir \/ under_build p = false) /\
    (forall p, under_build p = false -> (In p (fs_dirs s') <-> In p (fs_dirs s))).
Proof.
  intros Hwf. unfold build_tree_ok in Hwf. apply andb_prop in Hwf as [_ Hwf].
  unfold clean_build_directory.
  destruct (path_exists s build_dir) eqn:Hp.
  - assert (Hb : in_cols build_dir (filter (fun p => negb (under_build p)) (fs_dirs s)) = false).
    { destruct (in_cols build_dir (filter (fun p => negb (under_build p)) (fs_dirs s))) eqn:E;
        [|reflexivity].
      apply in_cols_In, filter_In in E as [_ E]. discriminate E. }
    unfold makedirs_build, rmtree_build. cbn [fs_dirs fs_files]. rewrite Hb.
    do 2 eexists; split; [reflexivity|]. cbn [fs_dirs fs_files].
    split; [reflexivity|]. split; [apply in_or_app; right; left; reflexivity|]. split.
    + intros p Hin. apply in_app_or in Hin as [Hin|[<-|[]]]; [right|left; reflexivity].
      apply filter_In in Hin as [_ H]. now apply negb_true_iff in H.
    + intros p Hp'. split.
      * intros Hin. apply in_app_or in Hin as [Hin|[<-|[]]].
        -- now apply filter_In in Hin as [H _].
        -- discriminate Hp'.
      * intros Hin. apply in_or_app; left. apply filter_In. split; [exact Hin|]. now rewrite Hp'.
  - apply orb_false_iff in Hp as [Hd _]. rewrite Hd in Hwf. simpl in Hwf.
    rewrite forallb_forall in Hwf.
    unfold makedirs_build. rewrite Hd.
    do 2 eexists; split; [reflexivity|]. cbn [fs_dirs fs_files]. split.
    + symmetry. apply filter_keep_all. intros f Hf. apply Hwf.
      apply in_or_app; right. now apply in_map.
    + split; [apply in_or_app; right; left; reflexivity|]. split.
      * intros p Hin. apply in_app_or in Hin as [Hin|[<-|[]]]; [right|left; reflexivity].
        apply negb_true_iff, Hwf, in_or_app. now left.
      * intros p Hp'. split.
        -- intros Hin. apply in_app_or in Hin as [Hin|[<-|[]]]; [exact Hin|discriminate Hp'].
        -- intros Hin. apply in_or_app; now left.
Qed.

(** X11: when [build] is not a plain file and, if it is not a directory,
    nothing lies below it, [clean_build_directory] succeeds and leaves an
    empty [build/] directory: no file and no directory below it, every file
    outside it as it was, and the directories outside it as they were. *)
Theorem clean_build_directory_empties_build (s : fs) (Hwf : build_tree_ok s = true) :
  final_res (clean_build_directory s) = Ok tt /\
  In build_dir (fs_dirs (final_fs (clean_build_directory s))) /\
  build_files (final_fs (clean_build_directory s)) = [] /\
  no_dirs_below_build (final_fs (clean_build_directory s)) = true /\
  fs_files (final_fs (clean_build_directory s)) =
    filter (fun f => negb (under_build (fst f))) (fs_files s) /\
  (forall p, under_build p = false ->
     (In p (fs_dirs (final_fs (clean_build_directory s))) <-> In p (fs_dirs s))).
Proof.
  destruct (clean_build_directory_spec s Hwf) as (log & s' & E & Hf & Hb & Hd & Ho).
  unfold final_res, final_fs. rewrite E. cbn [fst snd].
  split; [reflexivity|]. split; [exact Hb|]. split; [|split; [|split; [exact Hf|exact Ho]]].
  - unfold build_files. rewrite Hf. rewrite filter_drop_all; [reflexivity|].
    intros f Hin. apply filter_In in Hin as [_ H]. now apply negb_true_iff in H.
  - unfold no_dirs_below_build. apply forallb_forall. intros p Hp.
    destruct (Hd p Hp) as [->|H]; [reflexivity|]. rewrite H, orb_true_r. reflexivity.
Qed.

(** X12: with a [build/] directory (and no directory below it in the way),
    [prepare_build_directory] writes [.nojekyll] empty, [robots.txt] and
    [sitemap.xml], replacing earlier versions, and changes no other file and
    no directory; without [build/] it raises at the first [open] and changes
    nothing. *)
Theorem prepare_build_directory_writes_three_files (s : fs) (Hnd : no_dirs_below_build s = true) :
  (in_cols build_dir (fs_dirs s) = true ->
     final_res (prepare_build_directory s) = Ok tt /\
     fs_dirs (final_fs (prepare_build_directory s)) = fs_dirs s /\
     file_content (final_fs (prepare_build_directory s)) "build/.nojekyll" = Some (CText "") /\
     file_content (final_fs (prepare_build_directory s)) "build/robots.txt" = Some (CText robots_txt) /\
     file_content (final_fs (prepare_build_directory s)) "build/sitemap.xml" = Some (CText sitemap_xml) /\
     (forall p, ~ In p ["build/.nojekyll"; "build/robots.txt"; "build/sitemap.xml"] ->
        file_content (final_fs (prepare_build_directory s)) p = file_content s p)) /\
  (in_cols build_dir (fs_dirs s) = false ->
     prepare_build_directory s =
       ([], s, Raise (OtherError "No such file or directory: 'build/.nojekyll'"))).
Proof.
  split.
  - intros Hb. unfold final_res, final_fs, file_content.
    rewrite prepare_build_directory_in_build by exact Hb. cbn [fst snd fs_dirs fs_files].
    split; [reflexivity|]. split; [reflexivity|].
    split; [rewrite !assoc_written_other by discriminate; apply assoc_written|].
    split; [rewrite !assoc_written_other by discriminate; apply assoc_written|].
    split; [apply assoc_written|].
    intros p Hp. rewrite !assoc_written_other; [reflexivity|..]; intros ->; apply Hp; simpl; tauto.
  - intros Hb. unfold prepare_build_directory, sbind, write_build_file. rewrite Hb. reflexivity.
Qed.

Lemma path_absent_after_clean (D : list string) (F X : list (string * content)) (p : string) :
  (forall q, In q D -> q = build_dir \/ under_build q = false) ->
  (forall q, In q (map fst F) -> under_build q = false) ->
  under_build p = true -> p <> build_dir -> ~ In p (map fst X) ->
  path_exists {| fs_dirs := D; fs_files := (F ++ X)%list |} p = false.
Proof.
  intros HD HF Hp Hpb HX. unfold path_exists. cbn [fs_dirs fs_files].
  apply orb_false_iff. split.
  - destruct (in_cols p D) eqn:E; [|reflexivity].
    apply in_cols_In, HD in E as [E|E]; [contradiction|congruence].
  - destruct (existsb _ _) eqn:E; [|reflexivity].
    apply existsb_exists in E as (f & Hf & Ef). apply String.eqb_eq in Ef.
    apply in_app_or in Hf as [Hf|Hf].
    + apply (in_map fst), HF in Hf. congruence.
    + exfalso. apply HX. rewrite <- Ef. now apply in_map.
Qed.

(** X13: cleaning, then preparing, optimizing and writing the manifest
    (the steps of [main] around a freezer that writes nothing) succeeds on
    any tree where [build] is not a plain file; afterwards [build/] holds
    exactly [.nojekyll], [robots.txt], [sitemap.xml] and
    [deployment-info.json], in that order, stale files included or not
    before, and the validation finds all five required paths missing. *)
Theorem post_processing_fails_validation (now pyv flv : string) (s : fs)
  (Hwf : build_tree_ok s = true) :
  final_res (post_processing now pyv flv s) = Ok tt /\
  build_files (final_fs (post_processing now pyv flv s)) =
    ["build/.nojekyll"; "build/robots.txt"; "build/sitemap.xml"; "build/deployment-info.json"] /\
  missing_files (final_fs (post_processing now pyv flv s)) = required_files /\
  final_res (validate_build (final_fs (post_processing now pyv flv s))) = Ok false.
Proof.
  destruct (clean_build_directory_spec s Hwf) as (log & s1 & E & Hf & Hb & Hd & _).
  set (F1 := filter (fun f => negb (under_build (fst f))) (fs_files s)) in Hf.
  assert (HF1 : forall q, In q (map fst F1) -> under_build q = false).
  { intros q Hq. apply in_map_iff in Hq as (f & <- & Hq).
    apply filter_In in Hq as [_ H]. now apply negb_true_iff in H. }
  assert (Hb' : in_cols build_dir (fs_dirs s1) = true) by now apply in_cols_In.
  set (X := [("build/.nojekyll", CText ""); ("build/robots.txt", CText robots_txt);
             ("build/sitemap.xml", CText sitemap_xml);
             ("build/deployment-info.json", CManifest (deployment_info_of now pyv flv))]).
  assert (Hpost : post_processing now pyv flv s =
    ((log ++ [Print "Optimizing static files..."; Print "Static file optimization complete."])%list,
     {| fs_dirs := fs_dirs s1; fs_files := (F1 ++ X)%list |}, Ok tt)).
  { unfold post_processing, sbind at 1. rewrite E.
    unfold sbind at 1. rewrite prepare_build_directory_in_build by exact Hb'.
    unfold sbind, optimize_static_files, sprint, generate_deployment_info. unfold sbind. cbn beta iota.
    rewrite write_build_file_in_build by exact Hb'. cbn [fs_dirs fs_files].
    rewrite Hf.
    change (build_dir ++ "/" ++ "deployment-info.json") with "build/deployment-info.json".
    rewrite (written_fresh "build/.nojekyll"), (written_fresh "build/robots.txt"),
      (written_fresh "build/sitemap.xml"), (written_fresh "build/deployment-info.json").
    1: rewrite <- !app_assoc; reflexivity.
    all: rewrite ?map_app, ?in_app_iff; intros Hin; repeat destruct Hin as [Hin|Hin];
         first [apply HF1 in Hin; vm_compute in Hin; discriminate Hin | discriminate Hin | exact Hin]. }
  assert (Hmiss : missing_files {| fs_dirs := fs_dirs s1; fs_files := (F1 ++ X)%list |} = required_files).
  { unfold missing_files. apply filter_keep_all. intros f Hf'.
    apply negb_true_iff. apply path_absent_after_clean; [exact Hd|exact HF1| | |].
    - simpl in Hf'. intuition (subst; reflexivity).
    - simpl in Hf'. intuition (subst; discriminate).
    - simpl in Hf'. simpl. intuition (subst; discriminate). }
  unfold final_res, final_fs. rewrite Hpost. cbn [fst snd].
  split; [reflexivity|]. split; [|split; [exact Hmiss|]].
  - unfold build_files. cbn [fs_files]. rewrite filter_app, filter_drop_all; [reflexivity|].
    intros f Hin. apply HF1. now apply in_map.
  - unfold validate_build. rewrite Hmiss. reflexivity.
Qed.

(** ** The static-file generator *)

Lemma string_app_assoc (a b c : string) : ((a ++ b) ++ c)%string = (a ++ (b ++ c))%string.
Proof. induction a as [|x a IH]; simpl; [reflexivity|now rewrite IH]. Qed.

Lemma strip_prefix_app (pre p r : string) : strip_prefix pre p = Some r -> p = (pre ++ r)%string.
Proof.
  revert p; induction pre as [|a pre IH]; intros p H; simpl in H.
  - now injection H as <-.
  - destruct p as [|b p]; [discriminate|].
    destruct (Ascii.eqb a b) eqn:E; [|discriminate].
    apply Ascii.eqb_eq in E; subst b. simpl. f_equal. now apply IH.
Qed.

Lemma child_name_path (dir p n : string) : child_name dir p = Some n -> p = (dir ++ "/" ++ n)%string.
Proof.
  unfold child_name. destruct (strip_prefix (dir ++ "/") p) as [m|] eqn:E; [|discriminate].
  destruct (has_slash m || String.eqb m ""); [discriminate|].
  intros H; injection H as <-. apply strip_prefix_app in E. now rewrite E, string_app_assoc.
Qed.

Lemma listdir_paths (s : fs) (dir : string) (ns : list string) :
  listdir s dir = Ok ns -> forall n, In n ns -> path_exists s (dir ++ "/" ++ n) = true.
Proof.
  unfold listdir. destruct (in_cols dir (fs_dirs s)); [|discriminate].
  intros H; injection H as <-. intros n Hn.
  apply in_flat_map in Hn as (p & Hp & Hn).
  destruct (child_name dir p) as [m|] eqn:E; [|destruct Hn].
  destruct Hn as [<-|[]]. apply child_name_path in E. subst p.
  unfold path_exists. apply orb_true_iff.
  apply in_app_or in Hp as [Hp|Hp].
  - left. now apply in_cols_In.
  - right. apply in_map_iff in Hp as (f & Ef & Hf).
    apply existsb_exists. exists f. split; [exact Hf|]. rewrite Ef. apply String.eqb_refl.
Qed.

Lemma yield_static_paths (s : fs) (sub : string) (ns : list string) :
  listdir s ("static/" ++ sub) = Ok ns ->
  Forall (fun y => fst y = "static" /\ path_exists s ("static/" ++ snd y) = true) (yield_static sub ns).
Proof.
  intros E. apply Forall_forall. intros y Hy. unfold yield_static in Hy.
  apply in_map_iff in Hy as (n & <- & Hn). split; [reflexivity|]. cbn [snd].
  rewrite <- string_app_assoc. exact (listdir_paths s _ ns E n Hn).
Qed.

(** X14: every pair [static_files] yields names the endpoint [static] and a
    path that exists under [static/]; a missing [static/css] makes it raise
    before yielding anything; with [static/css] and [static/js] present, it
    ends normally exactly when [static/images] is absent or a directory. *)
Theorem static_files_yields_existing_paths (s : fs) :
  Forall (fun y => fst y = "static" /\ path_exists s ("static/" ++ snd y) = true)
         (fst (static_files s)) /\
  (in_cols "static/css" (fs_dirs s) = false ->
     static_files s = ([], Raise (OtherError "No such file or directory: 'static/css'"))) /\
  (in_cols "static/css" (fs_dirs s) = true -> in_cols "static/js" (fs_dirs s) = true ->
     (snd (static_files s) = Ok tt <->
      path_exists s "static/images" = false \/ in_cols "static/images" (fs_dirs s) = true)).
Proof.
  split; [|split].
  - unfold static_files.
    destruct (listdir s "static/css") as [css|e] eqn:E1; [|constructor].
    pose proof (yield_static_paths s "css" css E1) as Y1.
    destruct (listdir s "static/js") as [js|e] eqn:E2; [|exact Y1].
    pose proof (yield_static_paths s "js" js E2) as Y2.
    destruct (path_exists s "static/images"); [|cbn [fst]; apply Forall_app; now split].
    destruct (listdir s "static/images") as [imgs|e] eqn:E3; [|cbn [fst]; apply Forall_app; now split].
    pose proof (yield_static_paths s "images" imgs E3) as Y3.
    cbn [fst]. apply Forall_app; split; [apply Forall_app; now split|exact Y3].
  - intros Hc. unfold static_files, listdir. rewrite Hc. reflexivity.
  - intros Hc Hj. unfold static_files. unfold listdir at 1 2. rewrite Hc, Hj.
    destruct (path_exists s "static/images") eqn:Ep.
    + unfold listdir. destruct (in_cols "static/images" (fs_dirs s)); cbn [snd].
      * split; [intros _; now right|reflexivity].
      * split; [discriminate|]. intros [H|H]; discriminate H.
    + cbn [snd]. split; [intros _; now left|reflexivity].
Qed.

(** ** The setup script *)

Lemma sbind_ok {A B} (m : FS A) (k : A -> FS B) (s s1 : fs) (l : list event) (a : A) :
  m s = (l, s1, Ok a) -> sbind m k s = (let '(l', s2, r) := k a s1 in ((l ++ l')%list, s2, r)).
Proof. intros E. unfold sbind. now rewrite E. Qed.

(** X15: [check_python_version] accepts exactly the versions from 3.7 on,
    compares only the first two fields, and touches no file. *)
Theorem check_python_version_threshold (major minor : Z) (rest : list Z) (version : string) (s : fs) :
  final_fs (Setup.check_python_version (major :: minor :: rest) version s) = s /\
  final_res (Setup.check_python_version (major :: minor :: rest) version s) =
    Ok ((3 <? major) || ((major =? 3) && (7 <=? minor)))%Z.
Proof.
  assert (Hr : Setup.tuple_ltb rest [] = false) by (destruct rest; reflexivity).
  unfold Setup.check_python_version, final_fs, final_res. cbn [Setup.tuple_ltb].
  rewrite Hr.
  destruct (Z.ltb_spec major 3); destruct (Z.ltb_spec 3 major);
    destruct (Z.ltb_spec minor 7); destruct (Z.ltb_spec 7 minor);
    destruct (Z.eqb_spec major 3); destruct (Z.leb_spec 7 minor);
    try lia; split; reflexivity.
Qed.

Lemma string_app_nil_r (a : string) : (a ++ "")%string = a.
Proof. induction a as [|x a IH]; simpl; [reflexivity|now rewrite IH]. Qed.

Lemma ancestors_from_last (acc p : string) : In (acc ++ p)%string (Setup.ancestors_from acc p).
Proof.
  revert acc; induction p as [|a p IH]; intros acc; simpl.
  - left. now rewrite string_app_nil_r.
  - specialize (IH (acc ++ String a "")%string). rewrite string_app_assoc in IH.
    destruct (Ascii.eqb a "/"%char); [right|]; exact IH.
Qed.

Lemma ancestors_self (p : string) : In p (Setup.ancestors p).
Proof. exact (ancestors_from_last "" p). Qed.

Lemma add_dir_In (ds : list string) (q p : string) : In p (Setup.add_dir ds q) <-> In p ds \/ p = q.
Proof.
  unfold Setup.add_dir. destruct (in_cols q ds) eqn:E.
  - apply in_cols_In in E. split; [now left|intros [H| ->]; assumption].
  - rewrite in_app_iff. simpl. split; intros [H|H]; auto; destruct H; auto; contradiction.
Qed.

Lemma add_dirs_In (L ds : list string) (p : string) :
  In p (fold_left Setup.add_dir L ds) <-> In p ds \/ In p L.
Proof.
  revert ds; induction L as [|q L IH]; intros ds; simpl.
  - tauto.
  - rewrite IH, add_dir_In. intuition (subst; auto).
Qed.

Lemma add_dirs_noop (L ds : list string) :
  (forall p, In p L -> In p ds) -> fold_left Setup.add_dir L ds = ds.
Proof.
  revert ds; induction L as [|q L IH]; intros ds H; simpl; [reflexivity|].
  unfold Setup.add_dir at 2. rewrite (proj2 (in_cols_In q ds)) by (apply H; now left).
  apply IH. intros p Hp. apply H. now right.
Qed.

Lemma makedirs_clear (p : string) (s : fs) :
  forallb (fun q => negb (Setup.is_file s q)) (Setup.ancestors p) = true ->
  Setup.makedirs p s =
    ([], {| fs_dirs := fold_left Setup.add_dir (Setup.ancestors p) (fs_dirs s); fs_files := fs_files s |},
     Ok tt).
Proof.
  intros H. rewrite forallb_forall in H. unfold Setup.makedirs.
  assert (Hp : Setup.is_file s p = false).
  { apply negb_true_iff, H, ancestors_self. }
  assert (Ha : existsb (Setup.is_file s) (Setup.ancestors p) = false).
  { destruct (existsb _ _) eqn:E; [|reflexivity].
    apply existsb_exists in E as (q & Hq & Eq). apply H in Hq. now rewrite Eq in Hq. }
  now rewrite Hp, Ha.
Qed.

Lemma for_each_makedirs (L : list string) (s : fs) :
  forallb (fun q => negb (Setup.is_file s q)) (flat_map Setup.ancestors L) = true ->
  exists log,
    Setup.for_each L (fun d => sbind (Setup.makedirs d) (fun _ => sprint ("  Created: " ++ d ++ "/"))) s =
    (log, {| fs_dirs := fold_left Setup.add_dir (flat_map Setup.ancestors L) (fs_dirs s);
             fs_files := fs_files s |}, Ok tt).
Proof.
  revert s; induction L as [|d L IH]; intros s H; cbn [Setup.for_each flat_map] in H |- *.
  - exists []. destruct s; reflexivity.
  - rewrite forallb_app in H. apply andb_prop in H as [H1 H2].
    destruct (IH {| fs_dirs := fold_left Setup.add_dir (Setup.ancestors d) (fs_dirs s);
                    fs_files := fs_files s |} H2) as (log & E).
    erewrite sbind_ok.
    2:{ erewrite sbind_ok by (apply makedirs_clear; exact H1). reflexivity. }
    rewrite E. cbn [fs_dirs fs_files]. rewrite fold_left_app. eexists. reflexivity.
Qed.

Lemma create_directory_structure_clear (s : fs) :
  setup_dirs_clear s = true ->
  exists log, Setup.create_directory_structure s =
    (log, {| fs_dirs := fold_left Setup.add_dir (flat_map Setup.ancestors Setup.directories) (fs_dirs s);
             fs_files := fs_files s |}, Ok true).
Proof.
  intros H. destruct (for_each_makedirs Setup.directories s H) as (log & E).
  unfold Setup.create_directory_structure. erewrite sbind_ok by reflexivity. cbn beta iota.
  erewrite sbind_ok by exact E. eexists. reflexivity.
Qed.

Lemma setup_ancestors :
  flat_map Setup.ancestors Setup.directories =
    ["static"; "static/css"; "static"; "static/js"; "static"; "static/images"; "templates"; "data"; "build"].
Proof. reflexivity. Qed.

(** X16: when no file stands where [setup.py] wants a directory,
    [create_directory_structure] succeeds, adds exactly [static], its
    three subfolders, [templates], [data] and [build] to the directories,
    changes no file, and a second run changes nothing. *)
Theorem create_directory_structure_idempotent (s : fs) (Hclear : setup_dirs_clear s = true) :
  final_res (Setup.create_directory_structure s) = Ok true /\
  fs_files (final_fs (Setup.create_directory_structure s)) = fs_files s /\
  (forall p, In p (fs_dirs (final_fs (Setup.create_directory_structure s))) <->
             In p (fs_dirs s) \/
             In p ["static"; "static/css"; "static/js"; "static/images"; "templates"; "data"; "build"]) /\
  final_fs (Setup.create_directory_structure (final_fs (Setup.create_directory_structure s))) =
    final_fs (Setup.create_directory_structure s).
Proof.
  destruct (create_directory_structure_clear s Hclear) as (log & E).
  unfold final_res, final_fs. rewrite E. cbn [fst snd fs_dirs fs_files].
  split; [reflexivity|]. split; [reflexivity|]. split.
  - intros p. rewrite add_dirs_In, setup_ancestors. simpl. tauto.
  - destruct (create_directory_structure_clear
                {| fs_dirs := fold_left Setup.add_dir (flat_map Setup.ancestors Setup.directories) (fs_dirs s);
                   fs_files := fs_files s |} Hclear) as (log' & E').
    rewrite E'. cbn [fst snd fs_dirs fs_files]. f_equal.
    apply add_dirs_noop. intros p Hp. apply add_dirs_In. now right.
Qed.

Lemma path_exists_written (path text : string) (s : fs) :
  path_exists {| fs_dirs := fs_dirs s;
                 fs_files := (filter (fun f => negb (String.eqb (fst f) path)) (fs_files s) ++
                              [(path, CText text)])%list |} path = true.
Proof.
  unfold path_exists. apply orb_true_iff; right. apply existsb_exists.
  exists (path, CText text). split; [apply in_or_app; right; now left|apply String.eqb_refl].
Qed.

Lemma write_if_absent_spec (path text : string) (s : fs) :
  (path_exists s path = true ->
     Setup.write_if_absent path text s = ([Print (path ++ " already exists, skipping...")], s, Ok tt)) /\
  (path_exists s path = false ->
     file_content (final_fs (Setup.write_if_absent path text s)) path = Some (CText text) /\
     fs_dirs (final_fs (Setup.write_if_absent path text s)) = fs_dirs s /\
     (forall p, p <> path ->
        file_content (final_fs (Setup.write_if_absent path text s)) p = file_content s p)) /\
  final_fs (Setup.write_if_absent path text (final_fs (Setup.write_if_absent path text s))) =
    final_fs (Setup.write_if_absent path text s).
Proof.
  unfold Setup.write_if_absent, final_fs, file_content.
  destruct (path_exists s path) eqn:E; cbn [fst snd fs_dirs fs_files].
  - split; [reflexivity|]. split; [discriminate|]. rewrite E. reflexivity.
  - split; [discriminate|]. split.
    + intros _. split; [apply assoc_written|]. split; [reflexivity|].
      intros p Hp. exact (assoc_written_other p path (CText text) (fs_files s) Hp).
    + rewrite path_exists_written. reflexivity.
Qed.

(** X17: [create_env_file] and [create_gitignore] never overwrite: an
    existing [.env] (or [.gitignore]), file or directory, is left as it
    is with a skip message; a missing one is written with the fixed
    template and nothing else changes; running either twice is running it
    once. *)
Theorem setup_files_never_overwritten (s : fs) :
  (path_exists s ".env" = true ->
     Setup.create_env_file s = ([Print ".env already exists, skipping..."], s, Ok tt)) /\
  (path_exists s ".env" = false ->
     file_content (final_fs (Setup.create_env_file s)) ".env" = Some (CText Setup.env_content) /\
     fs_dirs (final_fs (Setup.create_env_file s)) = fs_dirs s /\
     (forall p, p <> ".env" -> file_content (final_fs (Setup.create_env_file s)) p = file_content s p)) /\
  final_fs (Setup.create_env_file (final_fs (Setup.create_env_file s))) = final_fs (Setup.create_env_file s) /\
  (path_exists s ".gitignore" = true ->
     Setup.create_gitignore s = ([Print ".gitignore already exists, skipping..."], s, Ok tt)) /\
  (path_exists s ".gitignore" = false ->
     file_content (final_fs (Setup.create_gitignore s)) ".gitignore" = Some (CText Setup.gitignore_content) /\
     fs_dirs (final_fs (Setup.create_gitignore s)) = fs_dirs s /\
     (forall p, p <> ".gitignore" ->
        file_content (final_fs (Setup.create_gitignore s)) p = file_content s p)) /\
  final_fs (Setup.create_gitignore (final_fs (Setup.create_gitignore s))) = final_fs (Setup.create_gitignore s).
Proof.
  unfold Setup.create_env_file, Setup.create_gitignore.
  destruct (write_if_absent_spec ".env" Setup.env_content s) as (A1 & A2 & A3).
  destruct (write_if_absent_spec ".gitignore" Setup.gitignore_content s) as (B1 & B2 & B3).
  repeat split; assumption || (intros; auto).
  - now apply A2.
  - now apply A2.
  - now apply A2.
  - now apply B2.
  - now apply B2.
  - now apply B2.
Qed.

Lemma sbind_raise {A B} (m : FS A) (k : A -> FS B) (s s1 : fs) (l : list event) (e : exn) :
  m s = (l, s1, Raise e) -> sbind m k s = (l, s1, Raise e).
Proof. intros E. unfold sbind. now rewrite E. Qed.

Lemma sbind_ext {A B} (m : FS A) (k k' : A -> FS B) (s : fs) :
  (forall a s1 l, m s = (l, s1, Ok a) -> k a s1 = k' a s1) -> sbind m k s = sbind m k' s.
Proof.
  intros H. unfold sbind. destruct (m s) as [[l s1] [a|e]] eqn:E; [|reflexivity].
  now rewrite (H a s1 l eq_refl).
Qed.

Lemma initialize_database_fails (init_db : FS unit) (s : fs) :
  Setup.initialize_database init_db s =
    ([Print "Initializing database...";
      Print "Failed to initialize database: cannot import name 'init_db' from 'app'"], s, Ok false).
Proof. reflexivity. Qed.

Lemma check_python_version_run (version_info : list Z) (version : string) (s : fs) :
  exists l, Setup.check_python_version version_info version s =
            (l, s, Ok (negb (Setup.tuple_ltb version_info [3; 7]%Z))).
Proof.
  unfold Setup.check_python_version. destruct (Setup.tuple_ltb version_info [3; 7]%Z); eexists; reflexivity.
Qed.

Lemma install_dependencies_run (pip_result : option string) (s : fs) :
  exists l, Setup.install_dependencies pip_result s =
            (l, s, Ok (match pip_result with None => true | Some _ => false end)).
Proof. destruct pip_result; eexists; reflexivity. Qed.

Lemma write_if_absent_run (path text : string) (s : fs) :
  exists l s', Setup.write_if_absent path text s = (l, s', Ok tt) /\ fs_dirs s' = fs_dirs s /\
    path_exists s' path = true /\ (forall p, path_exists s p = true -> path_exists s' p = true).
Proof.
  unfold Setup.write_if_absent. destruct (path_exists s path) eqn:E.
  - do 2 eexists; split; [reflexivity|]. split; [reflexivity|]. split; [exact E|auto].
  - do 2 eexists; split; [reflexivity|]. split; [reflexivity|]. split; [apply path_exists_written|].
    intros p Hp. unfold path_exists in *. cbn [fs_dirs fs_files].
    apply orb_true_iff in Hp as [Hp|Hp]; apply orb_true_iff; [now left|right].
    apply existsb_exists in Hp as (f & Hf & Ef). apply String.eqb_eq in Ef.
    apply existsb_exists. destruct (String.eqb (fst f) path) eqn:Ep.
    + exists (path, CText text). split; [apply in_or_app; right; now left|].
      apply String.eqb_eq in Ep. cbn [fst]. apply String.eqb_eq. congruence.
    + exists f. split; [|now apply String.eqb_eq].
      apply in_or_app; left. apply filter_In. split; [exact Hf|now rewrite Ep].
Qed.

Lemma sbind_const_res {A B} (m : FS A) (b : B) (s : fs) :
  (exists l s', sbind m (fun _ => sret b) s = (l, s', Ok b)) \/
  (exists l s' e, sbind m (fun _ => sret b) s = (l, s', Raise e)).
Proof. unfold sbind. destruct (m s) as [[l s'] [a|e]]; cbn; [left|right]; eauto. Qed.

Lemma create_directory_structure_run (s : fs) :
  (exists l s', Setup.create_directory_structure s = (l, s', Ok true)) \/
  (exists l s' e, Setup.create_directory_structure s = (l, s', Raise e)).
Proof.
  unfold Setup.create_directory_structure. erewrite sbind_ok by reflexivity. cbn beta iota.
  match goal with
  | |- context [sbind ?m (fun _ => sret true) s] =>
      destruct (sbind_const_res m true s) as [(l & s' & E)|(l & s' & e & E)]; rewrite E
  end; [left|right]; eauto.
Qed.

(** X18: the setup script never exits with status 0: the import of
    [init_db] from [app] always fails, so every run ends with status 1
    (or raises), and neither [init_db] nor the Flask test client is ever
    run. *)
Theorem setup_main_always_exits_one (version_info : list Z) (version : string)
  (pip_result : option string) (init_db init_db' : FS unit) (get_root get_root' : FS Z) (s : fs) :
  Setup.main version_info version pip_result init_db get_root s =
    Setup.main version_info version pip_result init_db' get_root' s /\
  exit_status (final_res (Setup.main version_info version pip_result init_db get_root s)) = 1%Z.
Proof.
  split.
  - unfold Setup.main.
    apply sbind_ext; intros a1 s1 l1 _; cbn beta.
    apply sbind_ext; intros a2 s2 l2 _; cbn beta.
    apply sbind_ext; intros ok3 s3 l3 _; cbn beta. destruct (negb ok3); [reflexivity|].
    apply sbind_ext; intros ok4 s4 l4 _; cbn beta. destruct (negb ok4); [reflexivity|].
    apply sbind_ext; intros ok5 s5 l5 _; cbn beta. destruct (negb ok5); [reflexivity|].
    apply sbind_ext; intros a6 s6 l6 _; cbn beta.
    apply sbind_ext; intros a7 s7 l7 _; cbn beta.
    erewrite !sbind_ok by apply initialize_database_fails. reflexivity.
  - destruct (check_python_version_run version_info version s) as (l1 & E1).
    unfold final_res, Setup.main.
    erewrite sbind_ok by reflexivity. cbn beta iota.
    erewrite sbind_ok by reflexivity. cbn beta iota.
    erewrite sbind_ok by exact E1. cbn beta iota delta [negb].
    destruct (Setup.tuple_ltb version_info [3; 7]%Z); cbn beta iota delta [negb].
    { reflexivity. }
    destruct (create_directory_structure_run s) as [(l2 & s2 & E2)|(l2 & s2 & e & E2)].
    2:{ erewrite sbind_raise by exact E2. reflexivity. }
    erewrite sbind_ok by exact E2. cbn beta iota delta [negb].
    destruct (install_dependencies_run pip_result s2) as (l3 & E3).
    erewrite sbind_ok by exact E3. cbn beta iota delta [negb].
    destruct pip_result as [msg|]; cbn beta iota delta [negb].
    { reflexivity. }
    destruct (write_if_absent_run ".env" Setup.env_content s2) as (l4 & s4 & E4 & _).
    erewrite sbind_ok by exact E4. cbn beta iota.
    destruct (write_if_absent_run ".gitignore" Setup.gitignore_content s4) as (l5 & s5 & E5 & _).
    erewrite sbind_ok by exact E5. cbn beta iota.
    erewrite sbind_ok by apply initialize_database_fails. cbn beta iota delta [negb]. reflexivity.
Qed.

(** X19: on Python 3.7 or later, with pip succeeding and no file in the way
    of its directories, [setup.py] creates the directories, makes sure
    [.env] and [.gitignore] exist, and then reports that the database could
    not be initialized and returns 1. *)
Theorem setup_main_fails_at_database (version_info : list Z) (version : string)
  (init_db : FS unit) (get_root : FS Z) (s : fs)
  (Hv : Setup.tuple_ltb version_info [3; 7]%Z = false) (Hclear : setup_dirs_clear s = true) :
  final_res (Setup.main version_info version None init_db get_root s) = Ok 1%Z /\
  path_exists (final_fs (Setup.main version_info version None init_db get_root s)) ".env" = true /\
  path_exists (final_fs (Setup.main version_info version None init_db get_root s)) ".gitignore" = true /\
  (forall p, In p Setup.directories ->
     In p (fs_dirs (final_fs (Setup.main version_info version None init_db get_root s)))) /\
  In (Print "Failed to initialize database: cannot import name 'init_db' from 'app'")
     (fst (fst (Setup.main version_info version None init_db get_root s))).
Proof.
  destruct (check_python_version_run version_info version s) as (l1 & E1).
  rewrite Hv in E1. cbn [negb] in E1.
  destruct (create_directory_structure_clear s Hclear) as (l2 & E2).
  set (s2 := {| fs_dirs := fold_left Setup.add_dir (flat_map Setup.ancestors Setup.directories) (fs_dirs s);
                fs_files := fs_files s |}) in E2.
  destruct (install_dependencies_run None s2) as (l3 & E3).
  destruct (write_if_absent_run ".env" Setup.env_content s2) as (l4 & s4 & E4 & D4 & P4 & _).
  destruct (write_if_absent_run ".gitignore" Setup.gitignore_content s4) as (l5 & s5 & E5 & D5 & P5 & K5).
  assert (Hmain : Setup.main version_info version None init_db get_root s =
    (([Print "Setting up Freak 'n Fries website migration project..."] ++
      ([Print (Setup.repeat_string 60 "=")] ++
       (l1 ++ (l2 ++ (l3 ++ (l4 ++ (l5 ++
         ([Print "Initializing database...";
           Print "Failed to initialize database: cannot import name 'init_db' from 'app'"] ++ []))))))))%list,
     s5, Ok 1%Z)).
  { unfold Setup.main.
    erewrite sbind_ok by reflexivity. cbn beta iota.
    erewrite sbind_ok by reflexivity. cbn beta iota.
    erewrite sbind_ok by exact E1. cbn beta iota delta [negb].
    erewrite sbind_ok by exact E2. cbn beta iota delta [negb].
    erewrite sbind_ok by exact E3. cbn beta iota delta [negb].
    erewrite sbind_ok by exact E4. cbn beta iota.
    erewrite sbind_ok by exact E5. cbn beta iota.
    erewrite sbind_ok by apply initialize_database_fails. cbn beta iota delta [negb]. reflexivity. }
  unfold final_res, final_fs. rewrite Hmain. cbn [fst snd].
  split; [reflexivity|]. split; [now apply K5|]. split; [exact P5|]. split.
  - intros p Hp. rewrite D5, D4. unfold s2; cbn [fs_dirs].
    apply add_dirs_In. right. rewrite setup_ancestors. simpl in Hp |- *. tauto.
  - rewrite !in_app_iff. simpl. tauto.
Qed.

(** ** [wsgi.py] *)

Lemma assoc_env_replaced (k v : string) (e : list (string * string)) :
  In k (map fst e) ->
  assoc k (map (fun kv => if String.eqb (fst kv) k then (k, v) else kv) e) = Some v.
Proof.
  induction e as [|[k' v'] e IH]; simpl; [intros []|].
  intros H. destruct (String.eqb k' k) eqn:E; simpl.
  - now rewrite String.eqb_refl.
  - rewrite String.eqb_sym, E. apply IH. destruct H as [H|H]; [|exact H].
    subst k'. now rewrite String.eqb_refl in E.
Qed.

Lemma assoc_env_appended (k v : string) (e : list (string * string)) :
  ~ In k (map fst e) -> assoc k (e ++ [(k, v)])%list = Some v.
Proof.
  induction e as [|[k' v'] e IH]; simpl; intros H.
  - now rewrite String.eqb_refl.
  - destruct (String.eqb k k') eqn:E.
    + apply String.eqb_eq in E. subst k'. exfalso. apply H. now left.
    + apply IH. intros H'. apply H. now right.
Qed.

Lemma env_set_assoc (e : list (string * string)) (k v : string) : assoc k (env_set e k v) = Some v.
Proof.
  unfold env_set. destruct (in_cols k (map fst e)) eqn:E.
  - apply in_cols_In in E. now apply assoc_env_replaced.
  - apply assoc_env_appended. intros H. apply in_cols_In in H. congruence.
Qed.

Lemma assoc_in_keys (k : string) (v : string) (e : list (string * string)) :
  assoc k e = Some v -> In k (map fst e).
Proof.
  induction e as [|[k' v'] e IH]; simpl; [discriminate|].
  destruct (String.eqb k k') eqn:E; intros H.
  - left. symmetry. now apply String.eqb_eq.
  - right. now apply IH.
Qed.

(** X20: whatever the environment, the application [wsgi.py] serves runs
    with the production settings: debug off and the database path
    [/home/yourusername/freaknfries/data/site.db], which lies outside the
    project directory [/home/DutchYankee/freaknfries] that [wsgi.py] puts on
    [sys.path] (at most once); without [PYTHONANYWHERE_DOMAIN], [app.py] on
    its own picks the development settings. *)
Theorem wsgi_serves_production_config (environ : list (string * string)) (path : list string) :
  wsgi_config environ =
    {| cfg_debug := false; cfg_database := "/home/yourusername/freaknfries/data/site.db" |} /\
  strip_prefix (project_path ++ "/") (cfg_database (wsgi_config environ)) = None /\
  assoc "PYTHONANYWHERE_DOMAIN" (wsgi_environ environ) = Some "DutchYankee.pythonanywhere.com" /\
  In project_path (wsgi_sys_path path) /\
  wsgi_sys_path (wsgi_sys_path path) = wsgi_sys_path path /\
  (in_cols "PYTHONANYWHERE_DOMAIN" (map fst environ) = false ->
     configure environ = {| cfg_debug := true; cfg_database := "data/site.db" |}).
Proof.
  assert (Hd : assoc "PYTHONANYWHERE_DOMAIN" (wsgi_environ environ) = Some "DutchYankee.pythonanywhere.com")
    by apply env_set_assoc.
  assert (Hc : wsgi_config environ =
    {| cfg_debug := false; cfg_database := "/home/yourusername/freaknfries/data/site.db" |}).
  { unfold wsgi_config, configure.
    rewrite (proj2 (in_cols_In _ _) (assoc_in_keys _ _ _ Hd)). reflexivity. }
  assert (Hin : In project_path (wsgi_sys_path path)).
  { unfold wsgi_sys_path. destruct (in_cols project_path path) eqn:E; [|now left].
    now apply in_cols_In. }
  split; [exact Hc|]. split; [rewrite Hc; reflexivity|]. split; [exact Hd|].
  split; [exact Hin|]. split.
  - unfold wsgi_sys_path at 1. now rewrite (proj2 (in_cols_In _ _) Hin).
  - intros H. unfold configure. now rewrite H.
Qed.


(** * Witnesses *)


Lemma get_site_settings_primary_row_witness :
  [("id", VInt 1); ("company_name", VText "Freak-n-Fries Inc.")] <> [] /\
  dict_get (VText "tagline") (primary_settings [("id", VInt 1); ("company_name", VText "Freak-n-Fries Inc.")]) =
    Some (VText "Home of the Dutch frikandel in the US").
Proof.
  assert (Hr : [("id", VInt 1); ("company_name", VText "Freak-n-Fries Inc.")] <> []) by discriminate.
  split; [exact Hr|].
  destruct (get_site_settings_primary_row _ [] (Raise (SqliteError "no such column: key")) Hr)
    as (_ & _ & Hv).
  apply (Hv "tagline" "Home of the Dutch frikandel in the US"). simpl; tauto.
Defined.

Lemma get_page_lookups_absent_once_connected_witness :
  db_opens empty_pages_store = true /\
  snd (get_page empty_pages_store "nonexistent-slug") = Ok None /\
  snd (get_page_content empty_pages_store "nonexistent-name") = Ok None.
Proof.
  destruct (get_page_lookups_absent_once_connected empty_pages_store "nonexistent-slug"
              "nonexistent-name" eq_refl) as (_ & _ & P & C & _).
  split; [reflexivity|]. split.
  - apply P. intros tb H coll Hc vs Hin. vm_compute in H. injection H as <-. destruct Hin.
  - apply C. intros tb H coll Hc vs Hin. vm_compute in H. injection H as <-. destruct Hin.
Defined.

Lemma get_retailers_by_category_sorted_filter_witness :
  db_opens retailers_store = true /\
  find_table retailers_store "retailers" = Some retailers_table /\
  column_collation retailers_table "category" = Some Binary /\
  column_collation retailers_table "name" = Some Binary /\
  (exists log rs, get_retailers_by_category retailers_store "online" = (log, Ok rs) /\
     Sorted (fun r1 r2 => row_leb Binary "name" r1 r2 = true) rs /\
     Permutation rs
       (map (mk_row (cols retailers_table))
          (filter (fun vs => py_eqb (cell (cols retailers_table) vs "category") (VText "online"))
             (rows retailers_table)))) /\
  match snd (get_retailers_by_category retailers_store "online") with
  | Ok rs => map (col_of "name") rs = [VText "Alpha Store"; VText "Beta Store"]
  | Raise _ => False
  end.
Proof.
  assert (Hopen : db_opens retailers_store = true) by reflexivity.
  assert (Ht : find_table retailers_store "retailers" = Some retailers_table) by reflexivity.
  assert (Hc : column_collation retailers_table "category" = Some Binary) by reflexivity.
  assert (Hn : column_collation retailers_table "name" = Some Binary) by reflexivity.
  split; [exact Hopen|]. split; [exact Ht|]. split; [exact Hc|]. split; [exact Hn|].
  split.
  - destruct (get_retailers_by_category_sorted_filter retailers_store "online" retailers_table
                Binary Binary Hopen Ht Hc Hn) as (log & rs & E & _ & S & B).
    exists log, rs. split; [exact E|]. split; [exact S|].
    apply B; [reflexivity|]. left. reflexivity.
  - vm_compute. reflexivity.
Defined.

Lemma get_testimonials_active_first_witness :
  (exists log ts, get_testimonials testimonials_store = (log, Ok ts) /\
     Forall (fun r => py_truthy (col_of "active" r) = true) ts /\
     forall log' ctx, index testimonials_store = (log', Ok (Rendered "index.html" ctx)) ->
       ic_testimonial ctx = hd_error ts) /\
  match index testimonials_store with
  | (_, Ok (Rendered _ ctx)) => option_map (col_of "text") (ic_testimonial ctx) = Some (VText "Great!")
  | _ => False
  end.
Proof.
  split.
  - do 2 eexists. split; [reflexivity|].
    destruct (get_testimonials_active_first testimonials_store _ _ eq_refl) as (A & _ & C).
    split; [|exact C].
    apply Forall_forall. intros r Hr.
    destruct (A r Hr) as (tb & coll & vs & _ & _ & _ & _ & _ & _ & T). exact T.
  - vm_compute. reflexivity.
Defined.

Lemma get_all_retailers_sorted_permutation_witness :
  db_opens retailers_store = true /\
  find_table retailers_store "retailers" = Some retailers_table /\
  column_collation retailers_table "category" = Some Binary /\
  column_collation retailers_table "name" = Some Binary /\
  (exists log rs, get_all_retailers retailers_store = (log, Ok rs) /\
    Permutation rs (map (mk_row (cols retailers_table)) (rows retailers_table)) /\
    Sorted (fun r1 r2 => row_leb2 Binary Binary "category" "name" r1 r2 = true) rs) /\
  match snd (get_all_retailers retailers_store) with
  | Ok rs => map (col_of "name") rs = [VText "Alpha Store"; VText "Beta Store"; VText "Joe's Diner"]
  | Raise _ => False
  end.
Proof.
  assert (Hopen : db_opens retailers_store = true) by reflexivity.
  assert (Ht : find_table retailers_store "retailers" = Some retailers_table) by reflexivity.
  assert (Hc : column_collation retailers_table "category" = Some Binary) by reflexivity.
  assert (Hn : column_collation retailers_table "name" = Some Binary) by reflexivity.
  split; [exact Hopen|]. split; [exact Ht|]. split; [exact Hc|]. split; [exact Hn|].
  split.
  - exact (get_all_retailers_sorted_permutation retailers_store retailers_table Binary Binary Hopen Ht Hc Hn).
  - vm_compute. reflexivity.
Defined.
Lemma list_accessors_missing_tables_witness :
  (db_opens (empty_pages_store) = true) /\
  (find_table (empty_pages_store) "retailers" = None) /\
  (find_table (empty_pages_store) "testimonials" = None) /\
  (get_all_retailers (empty_pages_store) =
    ([Query "SELECT * FROM retailers ORDER BY category, name";
      Print "Error getting all retailers: no such table: retailers"], Ok []) /\
  get_retailers_by_category (empty_pages_store) ("online") =
    ([Query "SELECT * FROM retailers WHERE category = ? ORDER BY name";
      Print ("Error getting retailers for category " ++ ("online") ++ ": no such table: retailers")], Ok []) /\
  get_testimonials (empty_pages_store) =
    ([Query "SELECT * FROM testimonials WHERE active = 1";
      Print "Error getting testimonials: no such table: testimonials"], Ok [])).
Proof.
  assert (Hopen : db_opens (empty_pages_store) = true) by (reflexivity).
  assert (Hr : find_table (empty_pages_store) "retailers" = None) by (reflexivity).
  assert (Ht : find_table (empty_pages_store) "testimonials" = None) by (reflexivity).
  exact (conj Hopen (conj Hr (conj Ht (list_accessors_missing_tables (empty_pages_store) ("online") Hopen Hr Ht)))).
Defined.

Lemma helpers_raise_when_db_unopenable_witness :
  (db_opens ({| db_opens := false; tables := [] |}) = false) /\
  (get_all_retailers ({| db_opens := false; tables := [] |}) = ([], Raise (SqliteError "unable to open database file")) /\
  get_retailers_by_category ({| db_opens := false; tables := [] |}) ("online") = ([], Raise (SqliteError "unable to open database file")) /\
  get_testimonials ({| db_opens := false; tables := [] |}) = ([], Raise (SqliteError "unable to open database file")) /\
  inject_global_vars ({| db_opens := false; tables := [] |}) = ([], Raise (SqliteError "unable to open database file")) /\
  not_found ({| db_opens := false; tables := [] |}) = ([], Raise (SqliteError "unable to open database file")) /\
  internal_error ({| db_opens := false; tables := [] |}) = ([], Raise (SqliteError "unable to open database file"))).
Proof.
  assert (Hclosed : db_opens ({| db_opens := false; tables := [] |}) = false) by (reflexivity).
  exact (conj Hclosed (helpers_raise_when_db_unopenable ({| db_opens := false; tables := [] |}) ("online") Hclosed)).
Defined.

Lemma views_answer_500_when_db_unopenable_witness :
  (db_opens ({| db_opens := false; tables := [] |}) = false) /\
  (index ({| db_opens := false; tables := [] |}) = ([Print "Error in index route: unable to open database file"],
             Ok (TextResponse "Error loading home page: unable to open database file" 500)) /\
  about (fun _ => "{}") ({| db_opens := false; tables := [] |}) = ([Print "Error in about route: unable to open database file"],
             Ok (Body "Error loading about page: unable to open database file" 500)) /\
  where_to_buy (fun _ => "{}") ({| db_opens := false; tables := [] |}) = ([Print "Error in where_to_buy route: unable to open database file"],
             Ok (Body "Error loading where to buy page: unable to open database file" 500)) /\
  admin ({| db_opens := false; tables := [] |}) = ([Print "Error in admin route: unable to open database file"],
             Ok (Body "Error loading admin page: unable to open database file" 500))).
Proof.
  assert (Hclosed : db_opens ({| db_opens := false; tables := [] |}) = false) by (reflexivity).
  exact (conj Hclosed (views_answer_500_when_db_unopenable (fun _ => "{}") ({| db_opens := false; tables := [] |}) Hclosed)).
Defined.


Lemma about_renders_once_connected_witness :
  db_opens pages_store = true /\
  exists ctx s log, about (fun _ => "{}") pages_store = (log, Ok (Render "about.html" ctx)) /\
    In (Print "About route - site_settings type: <class 'dict'>") log /\
    snd (get_site_settings pages_store) = Ok s /\ assoc "settings" ctx = Some (CDict s) /\
    (forall r, assoc "page" ctx = Some (COptRow (Some r)) ->
       selected_row pages_store "pages" "slug" (VText "about") r).
Proof.
  assert (Hopen : db_opens pages_store = true) by reflexivity.
  split; [exact Hopen|].
  destruct (about_renders_once_connected (fun _ => "{}") pages_store Hopen)
    as (ctx & s & S1 & _ & S3 & R & _ & L & P & _).
  destruct (R eq_refl) as (log & E).
  exists ctx, s, log. split; [exact E|]. split; [exact (L _ _ E)|].
  split; [exact S1|]. split; [exact S3|exact P].
Defined.


Lemma error_handlers_show_company_name_witness :
  db_opens kv_store = true /\
  (exists log s v, get_site_settings kv_store = (log, Ok s) /\
    dict_get (VText "company_name") s = Some v /\
    not_found kv_store = (log, Ok (Body ("Page not found - " ++ py_str v) 404)) /\
    internal_error kv_store = (log, Ok (Body ("Internal server error - " ++ py_str v) 500)) /\
    (settings_empty_or_missing kv_store -> v = VText "Freak-n-Fries")).
Proof.
  assert (Hopen : db_opens kv_store = true) by reflexivity.
  exact (conj Hopen (error_handlers_show_company_name kv_store Hopen)).
Defined.

Lemma get_site_settings_key_value_last_wins_witness :
  db_opens kv_store = true /\ find_table kv_store "settings" = Some kv_table /\
  In "key" (cols kv_table) /\ In "value" (cols kv_table) /\
  (forall r rs, select_where kv_store "settings" "id" (VInt 1) <> Ok (r :: rs)) /\
  rows kv_table <> [] /\
  exists log s, get_site_settings kv_store = (log, Ok s) /\
    dict_get (VText "company_name") s = Some (VText "Freak-n-Fries LLC") /\
    dict_get (VText "phone") s = Some VNull /\
    dict_get (VText "email") s = Some (VText "info@freaknfries.com").
Proof.
  assert (Hopen : db_opens kv_store = true) by reflexivity.
  assert (Ht : find_table kv_store "settings" = Some kv_table) by reflexivity.
  assert (Hkey : In "key" (cols kv_table)) by (simpl; tauto).
  assert (Hval : In "value" (cols kv_table)) by (simpl; tauto).
  assert (Hno1 : forall r rs, select_where kv_store "settings" "id" (VInt 1) <> Ok (r :: rs))
    by (intros r rs H; vm_compute in H; discriminate H).
  assert (Hne : rows kv_table <> []) by discriminate.
  do 6 (split; [assumption|]).
  destruct (get_site_settings_key_value_last_wins kv_store kv_table Hopen Ht Hkey Hval Hno1 Hne)
    as (log & s & E & G).
  exists log, s. split; [exact E|].
  rewrite !G. split; [|split]; vm_compute; reflexivity.
Defined.
Lemma clean_build_directory_empties_build_witness :
  (build_tree_ok (stale_tree) = true) /\
  (final_res (clean_build_directory (stale_tree)) = Ok tt /\
  In build_dir (fs_dirs (final_fs (clean_build_directory (stale_tree)))) /\
  build_files (final_fs (clean_build_directory (stale_tree))) = [] /\
  no_dirs_below_build (final_fs (clean_build_directory (stale_tree))) = true /\
  fs_files (final_fs (clean_build_directory (stale_tree))) =
    filter (fun f => negb (under_build (fst f))) (fs_files (stale_tree)) /\
  (forall p, under_build p = false ->
     (In p (fs_dirs (final_fs (clean_build_directory (stale_tree)))) <-> In p (fs_dirs (stale_tree))))).
Proof.
  assert (Hwf : build_tree_ok (stale_tree) = true) by (reflexivity).
  exact (conj Hwf (clean_build_directory_empties_build (stale_tree) Hwf)).
Defined.

Lemma prepare_build_directory_writes_three_files_witness :
  (no_dirs_below_build ({| fs_dirs := ["static"; "build"]; fs_files := [("build/robots.txt", CText "old"); ("static/site.css", COpaque "css")] |}) = true) /\
  ((in_cols build_dir (fs_dirs ({| fs_dirs := ["static"; "build"]; fs_files := [("build/robots.txt", CText "old"); ("static/site.css", COpaque "css")] |})) = true ->
     final_res (prepare_build_directory ({| fs_dirs := ["static"; "build"]; fs_files := [("build/robots.txt", CText "old"); ("static/site.css", COpaque "css")] |})) = Ok tt /\
     fs_dirs (final_fs (prepare_build_directory ({| fs_dirs := ["static"; "build"]; fs_files := [("build/robots.txt", CText "old"); ("static/site.css", COpaque "css")] |}))) = fs_dirs ({| fs_dirs := ["static"; "build"]; fs_files := [("build/robots.txt", CText "old"); ("static/site.css", COpaque "css")] |}) /\
     file_content (final_fs (prepare_build_directory ({| fs_dirs := ["static"; "build"]; fs_files := [("build/robots.txt", CText "old"); ("static/site.css", COpaque "css")] |}))) "build/.nojekyll" = Some (CText "") /\
     file_content (final_fs (prepare_build_directory ({| fs_dirs := ["static"; "build"]; fs_files := [("build/robots.txt", CText "old"); ("static/site.css", COpaque "css")] |}))) "build/robots.txt" = Some (CText robots_txt) /\
     file_content (final_fs (prepare_build_directory ({| fs_dirs := ["static"; "build"]; fs_files := [("build/robots.txt", CText "old"); ("static/site.css", COpaque "css")] |}))) "build/sitemap.xml" = Some (CText sitemap_xml) /\
     (forall p, ~ In p ["build/.nojekyll"; "build/robots.txt"; "build/sitemap.xml"] ->
        file_content (final_fs (prepare_build_directory ({| fs_dirs := ["static"; "build"]; fs_files := [("build/robots.txt", CText "old"); ("static/site.css", COpaque "css")] |}))) p = file_content ({| fs_dirs := ["static"; "build"]; fs_files := [("build/robots.txt", CText "old"); ("static/site.css", COpaque "css")] |}) p)) /\
  (in_cols build_dir (fs_dirs ({| fs_dirs := ["static"; "build"]; fs_files := [("build/robots.txt", CText "old"); ("static/site.css", COpaque "css")] |})) = false ->
     prepare_build_directory ({| fs_dirs := ["static"; "build"]; fs_files := [("build/robots.txt", CText "old"); ("static/site.css", COpaque "css")] |}) =
       ([], ({| fs_dirs := ["static"; "build"]; fs_files := [("build/robots.txt", CText "old"); ("static/site.css", COpaque "css")] |}), Raise (OtherError "No such file or directory: 'build/.nojekyll'")))).
Proof.
  assert (Hnd : no_dirs_below_build ({| fs_dirs := ["static"; "build"]; fs_files := [("build/robots.txt", CText "old"); ("static/site.css", COpaque "css")] |}) = true) by (reflexivity).
  exact (conj Hnd (prepare_build_directory_writes_three_files ({| fs_dirs := ["static"; "build"]; fs_files := [("build/robots.txt", CText "old"); ("static/site.css", COpaque "css")] |}) Hnd)).
Defined.

Lemma post_processing_fails_validation_witness :
  (build_tree_ok (stale_tree) = true) /\
  (final_res (post_processing ("2026-10-19T12:00:00") ("3.11.2") ("2.3.3") (stale_tree)) = Ok tt /\
  build_files (final_fs (post_processing ("2026-10-19T12:00:00") ("3.11.2") ("2.3.3") (stale_tree))) =
    ["build/.nojekyll"; "build/robots.txt"; "build/sitemap.xml"; "build/deployment-info.json"] /\
  missing_files (final_fs (post_processing ("2026-10-19T12:00:00") ("3.11.2") ("2.3.3") (stale_tree))) = required_files /\
  final_res (validate_build (final_fs (post_processing ("2026-10-19T12:00:00") ("3.11.2") ("2.3.3") (stale_tree)))) = Ok false).
Proof.
  assert (Hwf : build_tree_ok (stale_tree) = true) by (reflexivity).
  exact (conj Hwf (post_processing_fails_validation ("2026-10-19T12:00:00") ("3.11.2") ("2.3.3") (stale_tree) Hwf)).
Defined.

Lemma create_directory_structure_idempotent_witness :
  (setup_dirs_clear (source_tree) = true) /\
  (final_res (Setup.create_directory_structure (source_tree)) = Ok true /\
  fs_files (final_fs (Setup.create_directory_structure (source_tree))) = fs_files (source_tree) /\
  (forall p, In p (fs_dirs (final_fs (Setup.create_directory_structure (source_tree)))) <->
             In p (fs_dirs (source_tree)) \/
             In p ["static"; "static/css"; "static/js"; "static/images"; "templates"; "data"; "build"]) /\
  final_fs (Setup.create_directory_structure (final_fs (Setup.create_directory_structure (source_tree)))) =
    final_fs (Setup.create_directory_structure (source_tree))).
Proof.
  assert (Hclear : setup_dirs_clear (source_tree) = true) by (reflexivity).
  exact (conj Hclear (create_directory_structure_idempotent (source_tree) Hclear)).
Defined.

Lemma setup_main_fails_at_database_witness :
  (Setup.tuple_ltb ([3; 11; 2]%Z) [3; 7]%Z = false) /\
  (setup_dirs_clear (source_tree) = true) /\
  (final_res (Setup.main ([3; 11; 2]%Z) ("3.11.2") None (sret tt) (sret 200%Z) (source_tree)) = Ok 1%Z /\
  path_exists (final_fs (Setup.main ([3; 11; 2]%Z) ("3.11.2") None (sret tt) (sret 200%Z) (source_tree))) ".env" = true /\
  path_exists (final_fs (Setup.main ([3; 11; 2]%Z) ("3.11.2") None (sret tt) (sret 200%Z) (source_tree))) ".gitignore" = true /\
  (forall p, In p Setup.directories ->
     In p (fs_dirs (final_fs (Setup.main ([3; 11; 2]%Z) ("3.11.2") None (sret tt) (sret 200%Z) (source_tree))))) /\
  In (Print "Failed to initialize database: cannot import name 'init_db' from 'app'")
     (fst (fst (Setup.main ([3; 11; 2]%Z) ("3.11.2") None (sret tt) (sret 200%Z) (source_tree))))).
Proof.
  assert (Hv : Setup.tuple_ltb ([3; 11; 2]%Z) [3; 7]%Z = false) by (reflexivity).
  assert (Hclear : setup_dirs_clear (source_tree) = true) by (reflexivity).
  exact (conj Hv (conj Hclear (setup_main_fails_at_database ([3; 11; 2]%Z) ("3.11.2") (sret tt) (sret 200%Z) (source_tree) Hv Hclear))).
Defined.

